(** * Export models of the Bookkeeping front end

    A shallow embedding of [lib/public/models/OverviewExportModel.js] and of
    its specialization for the runs-per-data-pass overview
    ([RunsPerDataPassExportModel]), together with the properties of
    [createExport] stated in the specification.

    Layout: [JS] is the fragment of JavaScript the two classes rely on
    (values, coercions, plain objects, exceptions); [Host] holds the
    collaborators the classes import (remote data, notifications, the file
    sinks, the remote QC-flag source) as an event trace; one module per class
    follows the source line by line; [Spec] holds the vocabulary of the
    specification; the lemmas and the properties come last.

    Scope of the model: a record is the list of its own properties in
    enumeration order; the object literal that groups the texts by detector
    also sees the members of [Object.prototype], and the one [_fetchQcFlags]
    fills is read only under keys it was written under, [__proto__] being
    left out of what is stated of it; numbers are the integral doubles;
    formatters are total functions without effects; an [async] method is the
    run it performs, a rejected promise being a thrown error. *)

From Stdlib Require Import String Ascii List ZArith Lia Bool DecimalString.
Import ListNotations.
Open Scope string_scope.
Set Warnings "-register-all".

(* ================================================================== *)
(** * The JavaScript fragment *)

Module JS.

(** JavaScript values that the export data is made of (parsed JSON).
    [VNum n] is the Number nearest to the integer [n]; functions only occur
    as formatters and are kept outside of [value]. *)
Inductive value : Type :=
| VUndefined
| VNull
| VBool (b : bool)
| VNum (n : Z)
| VStr (s : string)
| VArr (elems : list value)
| VObj (props : list (string * value)).

(** Own properties of a plain object, in enumeration order. *)
Definition props (V : Type) : Type := list (string * V).
Definition object : Type := props value.

(** ** Coercions *)

Definition is_nullish (v : value) : bool :=
  match v with
  | VUndefined | VNull => true
  | _ => false
  end.

(** ToBoolean. *)
Definition is_truthy (v : value) : bool :=
  match v with
  | VUndefined | VNull => false
  | VBool b => b
  | VNum n => negb (n =? 0)%Z
  | VStr s => negb (s =? "")
  | VArr _ | VObj _ => true
  end.

Definition string_of_Z (n : Z) : string := NilZero.string_of_int (Z.to_int n).

(** The double nearest to a non-negative integer, ties to even; [None] is
    Infinity. *)
Definition double_of (x : Z) : option Z :=
  (if x <? 2 ^ 53 then Some x
   else
     let e := Z.log2 x - 52 in
     let q := Z.shiftr x e in
     let r := x - Z.shiftl q e in
     let half := Z.shiftl 1 (e - 1) in
     let q' := if (half <? r) || ((r =? half) && Z.odd q) then q + 1 else q in
     let d := Z.shiftl q' e in
     if d <? 2 ^ 1024 then Some d else None)%Z.

Definition closer (d : Z) (a b : option Z) : option Z :=
  match a, b with
  | Some x, Some y => if (Z.abs (y - d) <? Z.abs (x - d))%Z then Some y else Some x
  | Some x, None => Some x
  | None, y => y
  end.

(** Number::toString picks the fewest significant digits that still denote
    the double [d], here of [m] digits: the value they denote, tried from
    [k] digits on. *)
Fixpoint shortest (fuel : nat) (k m d : Z) : Z :=
  match fuel with
  | O => d
  | S fuel' =>
      if (m <=? k)%Z then d
      else
        let unit := (10 ^ (m - k))%Z in
        let lo := ((d / unit) * unit)%Z in
        let hi := (lo + unit)%Z in
        let denotes c := match double_of c with
                         | Some d' => (d' =? d)%Z
                         | None => false
                         end in
        match closer d (if denotes lo then Some lo else None)
                       (if denotes hi then Some hi else None) with
        | Some v => v
        | None => shortest fuel' (k + 1)%Z m d
        end
  end.

Fixpoint strip_zeros (s : string) : string :=
  match s with
  | EmptyString => EmptyString
  | String c rest =>
      match strip_zeros rest with
      | EmptyString => if Ascii.eqb c "0" then EmptyString else String c EmptyString
      | rest' => String c rest'
      end
  end.

(** A numeral of at most 21 digits is written out, a longer one in
    exponent form. *)
Definition render (v : Z) : string :=
  let numeral := string_of_Z v in
  let n := String.length numeral in
  if Nat.leb n 21 then numeral
  else
    match strip_zeros numeral with
    | String c EmptyString =>
        String c EmptyString ++ "e+" ++ string_of_Z (Z.of_nat n - 1)
    | String c rest =>
        String c EmptyString ++ "." ++ rest ++ "e+" ++ string_of_Z (Z.of_nat n - 1)
    | EmptyString => numeral
    end.

Definition number_pos (x : Z) : string :=
  match double_of x with
  | None => "Infinity"
  | Some d =>
      if (d <? 2 ^ 53)%Z then string_of_Z d
      else render (shortest 17 1 (Z.of_nat (String.length (string_of_Z d))) d)
  end.

(** Number::toString, radix 10. *)
Definition number_to_string (n : Z) : string :=
  if (n <? 0)%Z then "-" ++ number_pos (- n) else number_pos n.

(** Whether two integers denote the same Number. *)
Definition number_eqb (x y : Z) : bool :=
  (Z.sgn x =? Z.sgn y)%Z &&
  match double_of (Z.abs x), double_of (Z.abs y) with
  | Some a, Some b => (a =? b)%Z
  | None, None => true
  | _, _ => false
  end.

(** [Array.prototype.join] on an array of strings. *)
Definition join (sep : string) (parts : list string) : string :=
  String.concat sep parts.

(** ToString, as applied by template literals and by property keys. *)
Fixpoint to_string (v : value) : string :=
  match v with
  | VUndefined => "undefined"
  | VNull => "null"
  | VBool true => "true"
  | VBool false => "false"
  | VNum n => number_to_string n
  | VStr s => s
  | VArr elems =>
      join "," (map (fun e => if is_nullish e then "" else to_string e) elems)
  | VObj _ => "[object Object]"
  end.

(** ToPropertyKey. *)
Definition to_property_key (v : value) : string := to_string v.

(** [a ?? b]. *)
Definition nullish_or (a b : value) : value := if is_nullish a then b else a.

(** [a || b]. *)
Definition or_else (a b : value) : value := if is_truthy a then a else b.

(** [a === b] against a string literal. *)
Definition strict_eq_str (a : value) (lit : string) : bool :=
  match a with
  | VStr s => s =? lit
  | _ => false
  end.

(** SameValueZero, the equality of [Set]. Objects and arrays are compared by
    reference; the data is parsed JSON, where no two values share one. *)
Definition same_value_zero (a b : value) : bool :=
  match a, b with
  | VUndefined, VUndefined => true
  | VNull, VNull => true
  | VBool x, VBool y => Bool.eqb x y
  | VNum x, VNum y => number_eqb x y
  | VStr x, VStr y => x =? y
  | _, _ => false
  end.

(** ** Plain objects *)

Fixpoint obj_get {V : Type} (k : string) (o : props V) : option V :=
  match o with
  | [] => None
  | (k', v) :: o' => if k =? k' then Some v else obj_get k o'
  end.

(** [k in o], for own properties. *)
Definition obj_has {V : Type} (k : string) (o : props V) : bool :=
  match obj_get k o with
  | Some _ => true
  | None => false
  end.

Definition obj_keys {V : Type} (o : props V) : list string := map fst o.

(** An array index is the canonical numeral of an integer below 2^32 - 1. *)
Definition array_index (k : string) : option N :=
  match NilZero.uint_of_string k with
  | Some d =>
      let n := N.of_uint d in
      if (NilZero.string_of_uint (N.to_uint n) =? k) && (n <? 4294967295)%N
      then Some n
      else None
  | None => None
  end.

(** Own keys enumerate array indices first, ascending, then the other
    strings in creation order: whether a new key [k] goes before [k']. *)
Definition key_precedes (k k' : string) : bool :=
  match array_index k, array_index k' with
  | Some n, Some n' => (n <? n')%N
  | Some _, None => true
  | None, _ => false
  end.

Fixpoint obj_insert {V : Type} (k : string) (v : V) (o : props V) : props V :=
  match o with
  | [] => [(k, v)]
  | (k', v') :: o' =>
      if key_precedes k k' then (k, v) :: o
      else (k', v') :: obj_insert k v o'
  end.

Fixpoint obj_replace {V : Type} (k : string) (v : V) (o : props V) : props V :=
  match o with
  | [] => []
  | (k', v') :: o' =>
      if k =? k' then (k, v) :: o'
      else (k', v') :: obj_replace k v o'
  end.

(** [o[k] = v]: an existing property keeps its place. *)
Definition obj_set {V : Type} (k : string) (v : V) (o : props V) : props V :=
  if obj_has k o then obj_replace k v o else obj_insert k v o.

(** [Object.entries]. *)
Definition entries {V : Type} (o : props V) : list (string * V) := o.

(** [Object.fromEntries]. *)
Definition fromEntries {V : Type} (es : list (string * V)) : props V :=
  fold_left (fun o e => obj_set (fst e) (snd e) o) es [].

(** [v.k] on a value that is not nullish ([v?.k] below guards the rest). *)
Definition member (v : value) (k : string) : value :=
  match v with
  | VObj o =>
      match obj_get k o with
      | Some x => x
      | None => VUndefined
      end
  | VArr elems =>
      if k =? "length" then VNum (Z.of_nat (List.length elems))
      else match array_index k with
           | Some i => nth (N.to_nat i) elems VUndefined
           | None => VUndefined
           end
  | VStr s =>
      if k =? "length" then VNum (Z.of_nat (String.length s))
      else match array_index k with
           | Some i =>
               match String.get (N.to_nat i) s with
               | Some c => VStr (String c EmptyString)
               | None => VUndefined
               end
           | None => VUndefined
           end
  | _ => VUndefined
  end.

(** [v?.k]. *)
Definition opt_member (v : value) (k : string) : value :=
  if is_nullish v then VUndefined else member v k.

(** [o.k] on a record. *)
Definition field (o : object) (k : string) : value := member (VObj o) k.

(** ** Object literals used as maps *)

(** The names of the members of [Object.prototype], which every object
    literal inherits. *)
Definition Object_prototype_names : list string :=
  [ "constructor"; "__defineGetter__"; "__defineSetter__"; "hasOwnProperty";
    "__lookupGetter__"; "__lookupSetter__"; "isPrototypeOf";
    "propertyIsEnumerable"; "toString"; "valueOf"; "__proto__";
    "toLocaleString" ].

Definition is_inherited (k : string) : bool :=
  existsb (String.eqb k) Object_prototype_names.

(** What a read [o[k]] finds on an object literal: an own property, else a
    member of [Object.prototype] (a function, or the prototype itself:
    truthy, with no array method), else nothing. *)
Inductive found (V : Type) : Type :=
| Own (v : V)
| Inherited
| Missing.
Arguments Own {V} v.
Arguments Inherited {V}.
Arguments Missing {V}.

Definition literal_get {V : Type} (k : string) (o : props V) : found V :=
  match obj_get k o with
  | Some v => Own v
  | None => if is_inherited k then Inherited else Missing
  end.

(** ** Exceptions *)

Inductive error : Type :=
| TypeError
| Rejection.

Inductive outcome (A : Type) : Type :=
| Returned (a : A)
| Thrown (e : error).
Arguments Returned {A} a.
Arguments Thrown {A} e.

Definition obind {A B : Type} (m : outcome A) (f : A -> outcome B) : outcome B :=
  match m with
  | Returned a => f a
  | Thrown e => Thrown e
  end.

(** A loop body run over a list, left to right, stopping at the first throw. *)
Fixpoint ofold {A S : Type} (f : S -> A -> outcome S) (l : list A) (s : S)
  : outcome S :=
  match l with
  | [] => Returned s
  | a :: l' => obind (f s a) (ofold f l')
  end.

(** [Array.prototype.map] with a callback that may throw. *)
Fixpoint omap {A B : Type} (f : A -> outcome B) (l : list A) : outcome (list B) :=
  match l with
  | [] => Returned []
  | a :: l' =>
      obind (f a) (fun b => obind (omap f l') (fun bs => Returned (b :: bs)))
  end.

(** [v?.forEach(callback)]: skipped on a nullish [v], a loop on an array, and
    a TypeError on anything else, which has no [forEach]. *)
Definition opt_forEach {S : Type} (v : value) (f : S -> value -> outcome S) (s : S)
  : outcome S :=
  match v with
  | VUndefined | VNull => Returned s
  | VArr elems => ofold f elems s
  | _ => Thrown TypeError
  end.

(** Destructuring a callback parameter [({ ... }) => ...] throws on a
    nullish argument. *)
Definition destructure (v : value) : outcome value :=
  if is_nullish v then Thrown TypeError else Returned v.

End JS.

(* ================================================================== *)
(** * The collaborators the models import *)

Module Host.
Import JS.

(** One entry of the error list carried by [RemoteData.failure]. *)
Record api_error : Type := { title : string; detail : string }.

(** [RemoteData]: the state of an asynchronous fetch. *)
Inductive RemoteData (P : Type) : Type :=
| NotAsked
| Loading
| Success (payload : P)
| Failure (errors : list api_error).
Arguments NotAsked {P}.
Arguments Loading {P}.
Arguments Success {P} payload.
Arguments Failure {P} errors.

Definition isSuccess {P : Type} (rd : RemoteData P) : bool :=
  match rd with
  | Success _ => true
  | _ => false
  end.

(** [ObservableData]: only its current value is read. *)
Record ObservableData (A : Type) : Type := { getCurrent : A }.
Arguments getCurrent {A} o.

(** The query of [buildUrl('/api/qcFlags/perDataPass', { ... })]. *)
Record request : Type := {
  dataPassId : value;
  runNumber : value;
  page_limit : Z
}.

(** How the remote source settles one request: the promise rejects, or it
    resolves to a response. *)
Inductive fetch_outcome : Type :=
| Rejects
| Resolves (response : value).

(** What a run of the models does to its environment, in order. *)
Inductive event : Type :=
| Notify
| VisualChange
| SetError (failure : list api_error)
| Fetch (url : request)
| CSVExport (rows : list object) (fileName mime : string)
| JSONExport (rows : list object) (fileName mime : string).

(** The environment: the events so far, and the remote source, given by how
    it settles the n-th request issued, whatever that request asks. *)
Record world : Type := {
  trace : list event;
  remote : nat -> request -> fetch_outcome;
  issued : nat
}.

Definition Eff (A : Type) : Type := world -> outcome A * world.

Definition ret {A : Type} (a : A) : Eff A := fun w => (Returned a, w).

Definition throw {A : Type} (e : error) : Eff A := fun w => (Thrown e, w).

Definition bind {A B : Type} (m : Eff A) (f : A -> Eff B) : Eff B :=
  fun w =>
    match m w with
    | (Returned a, w') => f a w'
    | (Thrown e, w') => (Thrown e, w')
    end.

(** [try { m } catch (_) { handler }]. *)
Definition try_catch {A : Type} (m : Eff A) (handler : error -> Eff A) : Eff A :=
  fun w =>
    match m w with
    | (Returned a, w') => (Returned a, w')
    | (Thrown e, w') => handler e w'
    end.

Definition lift {A : Type} (m : outcome A) : Eff A := fun w => (m, w).

Definition emit (e : event) : Eff unit :=
  fun w =>
    (Returned tt,
     {| trace := trace w ++ [e]; remote := remote w; issued := issued w |}).

(** [if (c) { m }]. *)
Definition when (c : bool) (m : Eff unit) : Eff unit := if c then m else ret tt.

(** [await getRemoteDataSlice(url)]. *)
Definition getRemoteDataSlice (url : request) : Eff value :=
  fun w =>
    let w' := {| trace := trace w ++ [Fetch url];
                 remote := remote w;
                 issued := S (issued w) |} in
    match remote w (issued w) url with
    | Rejects => (Thrown Rejection, w')
    | Resolves response => (Returned response, w')
    end.

(** [for (const a of l) { body }] with a body that awaits. *)
Fixpoint for_of {A S : Type} (body : S -> A -> Eff S) (l : list A) (s : S) : Eff S :=
  match l with
  | [] => ret s
  | a :: l' => bind (body s a) (for_of body l')
  end.

(** A run from a fresh environment: how the call settled, and its events. *)
Definition run {A : Type} (rem : nat -> request -> fetch_outcome) (m : Eff A)
  : outcome A * list event :=
  let settled := m {| trace := []; remote := rem; issued := 0 |} in
  (fst settled, trace (snd settled)).

(** Modelled from the spec: [utilities/pick.js] is imported by both models
    and is not among the sources. "project only the selected fields (in
    their configured order; unknown field keys are silently dropped, i.e.
    projection is an intersection, not a join)". *)
Definition pick (obj : object) (keys : list string) : object :=
  fromEntries
    (map (fun key => (key, field obj key))
         (filter (fun key => obj_has key obj) keys)).

(** A formatter, [(value, item) => displayValue]. *)
Definition formatter : Type := value -> object -> value.

(** One entry of the per-field export configuration. *)
Record field_config : Type := { exportFormat : option formatter }.

(** [Set.prototype.add]. *)
Definition Set_add (x : value) (s : list value) : list value :=
  if existsb (same_value_zero x) s then s else s ++ [x].

End Host.

Declare Scope eff_scope.
Delimit Scope eff_scope with eff.
Notation "x <- m ;; k" := (Host.bind m (fun x => k))
  (at level 61, m at next level, right associativity) : eff_scope.
Notation "m ;; k" := (Host.bind m (fun _ => k))
  (at level 61, right associativity) : eff_scope.

(* ================================================================== *)
(** * [OverviewExportModel] *)

Module OverviewExportModel.
Import JS Host.
Local Open Scope eff_scope.

(** The fields set by the constructor. *)
Record t : Type := {
  _items : ObservableData (RemoteData (list object));
  _selectedFields : list string;
  _selectedExportType : value
}.

Definition constructor (items : option (ObservableData (RemoteData (list object))))
  : t :=
  {| _items := match items with
               | Some source => source
               | None => {| getCurrent := NotAsked |}
               end;
     _selectedFields := [];
     _selectedExportType := VStr "JSON" |}.

Definition setItemsSource (this : t) (items : ObservableData (RemoteData (list object)))
  : t :=
  {| _items := items;
     _selectedFields := _selectedFields this;
     _selectedExportType := _selectedExportType this |}.

Definition getSelectedExportType (this : t) : value := _selectedExportType this.

Definition setSelectedExportType (this : t) (exportType : value) : Eff t :=
  let this := {| _items := _items this;
                 _selectedFields := _selectedFields this;
                 _selectedExportType := exportType |} in
  emit Notify ;;
  emit VisualChange ;;
  ret this.

Definition getSelectedFields (this : t) : list string := _selectedFields this.

(** An element of the options collection; only its [value] is read. *)
Record selected_option : Type := { option_value : string }.

Definition setSelectedFields (this : t) (selectedOptions : list selected_option)
  : Eff t :=
  let this := {| _items := _items this;
                 _selectedFields := [];
                 _selectedExportType := _selectedExportType this |} in
  let this :=
    fold_left
      (fun this opt =>
         {| _items := _items this;
            _selectedFields := (_selectedFields this ++ [option_value opt])%list;
            _selectedExportType := _selectedExportType this |})
      selectedOptions this in
  emit Notify ;;
  emit VisualChange ;;
  ret this.

(** Lines 109-114: the failure handed to [setError] on the empty-result path. *)
Definition no_data_found : list api_error :=
  [ {| title := "No data found";
       detail := "No items were found with the provided filters" |} ].

(** Lines 122-129: the names of the detectors met in the batch, in the order
    they are first met. *)
Definition detectors (items : list object) : outcome (list value) :=
  ofold
    (fun detectors item =>
       opt_forEach (field item "qcFlags")
         (fun detectors flag =>
            obind (destructure flag) (fun flag =>
            let detector := member flag "detector" in
            if is_truthy (opt_member detector "name")
            then Returned (Set_add (member detector "name") detectors)
            else Returned detectors))
         detectors)
    items [].

(** Line 134: [exportFormats[key]?.exportFormat || ((v) => v)]. *)
Definition formatter_of (exportFormats : props field_config) (key : string)
  : formatter :=
  match obj_get key exportFormats with
  | Some config =>
      match exportFormat config with
      | Some f => f
      | None => fun v _ => v
      end
  | None => fun v _ => v
  end.

(** Lines 132-136: the selected fields of one item, formatted. *)
Definition mapped (exportFormats : props field_config) (selectedFields : list string)
    (item : object) : list (string * value) :=
  map (fun '(key, value) => (key, formatter_of exportFormats key value item))
      (entries (pick item selectedFields)).

(** Line 144: the text of one flag. *)
Definition flag_text (flagType from to : value) : string :=
  to_string (nullish_or (opt_member flagType "name") (VStr ""))
  ++ " ( from: " ++ to_string from ++ " to: " ++ to_string to ++ " )".

(** Lines 138-149: the texts of the flags of one item, per detector name.
    [perDetectorFlags] is an object literal: under the name of a member of
    [Object.prototype] the test of line 145 finds that member, no list is
    created, and line 148 calls a [push] that is not there. *)
Definition perDetectorFlags (item : object) : outcome (props (list string)) :=
  opt_forEach (field item "qcFlags")
    (fun perDetectorFlags flag =>
       obind (destructure flag) (fun flag =>
       let detector := member flag "detector" in
       let flagType := member flag "flagType" in
       let from := member flag "from" in
       let to := member flag "to" in
       let detName := opt_member detector "name" in
       if negb (is_truthy detName) then Returned perDetectorFlags
       else
         let text := flag_text flagType from to in
         let perDetectorFlags :=
           match literal_get (to_property_key detName) perDetectorFlags with
           | Missing => obj_set (to_property_key detName) [] perDetectorFlags
           | _ => perDetectorFlags
           end in
         match literal_get (to_property_key detName) perDetectorFlags with
         | Own texts =>
             Returned
               (obj_set (to_property_key detName) (texts ++ [text])%list
                  perDetectorFlags)
         | _ => Thrown TypeError
         end))
    [].

(** Lines 150-152: one column per detector; [fromEntries] turns the name
    into a property key. Under the name of a member of [Object.prototype]
    the read finds that member, which has no [join]. *)
Definition detector_columns (detectors : list value)
    (perDetectorFlags : props (list string)) : outcome (list (string * value)) :=
  omap (fun det =>
          match literal_get (to_property_key det) perDetectorFlags with
          | Own texts => Returned (to_property_key det, VStr (join "|" texts))
          | Missing => Returned (to_property_key det, VStr (join "|" []))
          | Inherited => Thrown TypeError
          end)
       detectors.

(** Lines 131-155. *)
Definition formatted (exportFormats : props field_config)
    (selectedFields : list string) (detectors : list value) (items : list object)
  : outcome (list object) :=
  omap
    (fun item =>
       let mapped := mapped exportFormats selectedFields item in
       obind (perDetectorFlags item) (fun perDetectorFlags =>
       obind (detector_columns detectors perDetectorFlags) (fun columns =>
       let mapped := (mapped ++ columns)%list in
       Returned (fromEntries mapped))))
    items.

(** Lines 103-160; [setError] tells whether the caller passed the callback. *)
Definition createExport (this : t) (fileName : string)
    (exportFormats : props field_config) (setError : bool) : Eff unit :=
  let itemsRemoteData := getCurrent (_items this) in
  let items := match itemsRemoteData with
               | Success payload => payload
               | _ => []
               end in
  if negb (isSuccess itemsRemoteData) || (List.length items =? 0)%nat then
    when setError (emit (SetError no_data_found)) ;;
    emit Notify
  else
    let selectedFields := getSelectedFields this in
    detectors <- lift (detectors items) ;;
    formatted <- lift (formatted exportFormats selectedFields detectors items) ;;
    if strict_eq_str (getSelectedExportType this) "CSV"
    then emit (CSVExport formatted (fileName ++ ".csv") "text/csv;charset=utf-8;")
    else emit (JSONExport formatted (fileName ++ ".json") "application/json").

End OverviewExportModel.

(* ================================================================== *)
(** * [RunsPerDataPassExportModel] *)

Module RunsPerDataPassExportModel.
Import JS Host.
Local Open Scope eff_scope.

(** The inherited fields and the data pass id. *)
Record t : Type := {
  super : OverviewExportModel.t;
  _dataPassId : value
}.

Definition constructor (items : ObservableData (RemoteData (list object)))
    (dataPassId : value) : t :=
  {| super := OverviewExportModel.constructor (Some items);
     _dataPassId := dataPassId |}.

Definition setDataPassId (this : t) (dataPassId : value) : t :=
  {| super := super this; _dataPassId := dataPassId |}.

(** Lines 48-63: one request per run number, each awaited before the next;
    a request that fails leaves an empty list for its run number. The map
    is an object literal: under the key [__proto__] the write of line 57 or
    60 goes to the prototype accessor and creates no entry; here it is kept
    like any other entry, and what is stated of the contents of the map, or
    of an export that reads it, leaves that key out. *)
Definition _fetchQcFlags (this : t) (runNumbers : list value) : Eff object :=
  for_of
    (fun map runNumber =>
       try_catch
         (response <- getRemoteDataSlice
                        {| dataPassId := _dataPassId this;
                           runNumber := runNumber;
                           page_limit := 1000 |} ;;
          response <- lift (destructure response) ;;
          let items := member response "items" in
          ret (obj_set (to_property_key runNumber) items map))
         (fun _ => ret (obj_set (to_property_key runNumber) (VArr []) map)))
    runNumbers [].

(** Lines 74-79: the failure handed to [setError] on the empty-result path. *)
Definition no_data_found : list api_error :=
  [ {| title := "No data found";
       detail := "No items were found with the provided filters" |} ].

(** Lines 92-94: the failure handed to [setError] when the enrichment throws. *)
Definition qc_flags_fetch_failed : list api_error :=
  [ {| title := "QC flags fetch failed";
       detail := "Unable to fetch QC flags for export" |} ].

(** Line 89: [{ ...run, qcFlags: qcMap[run.runNumber] || [] }]. *)
Definition with_flags (qcMap : object) (run : object) : object :=
  obj_set "qcFlags"
    (or_else (field qcMap (to_property_key (field run "runNumber"))) (VArr []))
    run.

(** Lines 102-109. *)
Definition detectors (itemsWithFlags : list object) : outcome (list value) :=
  ofold
    (fun detectors item =>
       opt_forEach (field item "qcFlags")
         (fun detectors flag =>
            obind (destructure flag) (fun flag =>
            let detector := member flag "detector" in
            if is_truthy (opt_member detector "name")
            then Returned (Set_add (member detector "name") detectors)
            else Returned detectors))
         detectors)
    itemsWithFlags [].

(** Line 114. *)
Definition formatter_of (exportFormats : props field_config) (key : string)
  : formatter :=
  match obj_get key exportFormats with
  | Some config =>
      match exportFormat config with
      | Some f => f
      | None => fun v _ => v
      end
  | None => fun v _ => v
  end.

(** Lines 112-116. *)
Definition mapped (exportFormats : props field_config) (selectedFields : list string)
    (item : object) : list (string * value) :=
  map (fun '(key, value) => (key, formatter_of exportFormats key value item))
      (entries (pick item selectedFields)).

(** Line 124. *)
Definition flag_text (flagType from to : value) : string :=
  to_string (nullish_or (opt_member flagType "name") (VStr ""))
  ++ " ( from: " ++ to_string from ++ " to: " ++ to_string to ++ " )".

(** Lines 118-129. *)
Definition perDetectorFlags (item : object) : outcome (props (list string)) :=
  opt_forEach (field item "qcFlags")
    (fun perDetectorFlags flag =>
       obind (destructure flag) (fun flag =>
       let detector := member flag "detector" in
       let flagType := member flag "flagType" in
       let from := member flag "from" in
       let to := member flag "to" in
       let detName := opt_member detector "name" in
       if negb (is_truthy detName) then Returned perDetectorFlags
       else
         let text := flag_text flagType from to in
         let perDetectorFlags :=
           match literal_get (to_property_key detName) perDetectorFlags with
           | Missing => obj_set (to_property_key detName) [] perDetectorFlags
           | _ => perDetectorFlags
           end in
         match literal_get (to_property_key detName) perDetectorFlags with
         | Own texts =>
             Returned
               (obj_set (to_property_key detName) (texts ++ [text])%list
                  perDetectorFlags)
         | _ => Thrown TypeError
         end))
    [].

(** Lines 130-132. *)
Definition detector_columns (detectors : list value)
    (perDetectorFlags : props (list string)) : outcome (list (string * value)) :=
  omap (fun det =>
          match literal_get (to_property_key det) perDetectorFlags with
          | Own texts => Returned (to_property_key det, VStr (join "|" texts))
          | Missing => Returned (to_property_key det, VStr (join "|" []))
          | Inherited => Thrown TypeError
          end)
       detectors.

(** Lines 111-135. *)
Definition formatted (exportFormats : props field_config)
    (selectedFields : list string) (detectors : list value)
    (itemsWithFlags : list object) : outcome (list object) :=
  omap
    (fun item =>
       let mapped := mapped exportFormats selectedFields item in
       obind (perDetectorFlags item) (fun perDetectorFlags =>
       obind (detector_columns detectors perDetectorFlags) (fun columns =>
       let mapped := (mapped ++ columns)%list in
       Returned (fromEntries mapped))))
    itemsWithFlags.

(** Lines 100-139: what follows the enrichment. *)
Definition export_items (this : t) (fileName : string)
    (exportFormats : props field_config) (itemsWithFlags : list object) : Eff unit :=
  let selectedFields := OverviewExportModel.getSelectedFields (super this) in
  detectors <- lift (detectors itemsWithFlags) ;;
  formatted <- lift (formatted exportFormats selectedFields detectors itemsWithFlags) ;;
  if strict_eq_str (OverviewExportModel.getSelectedExportType (super this)) "CSV"
  then emit (CSVExport formatted (fileName ++ ".csv") "text/csv;charset=utf-8;")
  else emit (JSONExport formatted (fileName ++ ".json") "application/json").

(** Lines 68-140. [this._fetchQcFlags] is looked up on the instance: the
    method is a parameter, [createExport] below ties it to the class's own. *)
Definition createExport_with (fetchQcFlags : t -> list value -> Eff object)
    (this : t) (fileName : string) (exportFormats : props field_config)
    (setError : bool) : Eff unit :=
  let itemsRemoteData := getCurrent (OverviewExportModel._items (super this)) in
  let items := match itemsRemoteData with
               | Success payload => payload
               | _ => []
               end in
  if negb (isSuccess itemsRemoteData) || (List.length items =? 0)%nat then
    when setError (emit (SetError no_data_found)) ;;
    emit Notify
  else if is_truthy (_dataPassId this) then
    enriched <-
      try_catch
        (qcMap <- fetchQcFlags this (map (fun item => field item "runNumber") items) ;;
         ret (Some (map (with_flags qcMap) items)))
        (fun _ =>
           when setError (emit (SetError qc_flags_fetch_failed)) ;;
           ret None) ;;
    match enriched with
    | Some itemsWithFlags => export_items this fileName exportFormats itemsWithFlags
    | None => ret tt
    end
  else export_items this fileName exportFormats items.

Definition createExport : t -> string -> props field_config -> bool -> Eff unit :=
  createExport_with _fetchQcFlags.

End RunsPerDataPassExportModel.

(* ================================================================== *)
(** * The vocabulary of the specification *)

Module Spec.
Import JS Host.

(** The annotation collection of a record. *)
Definition flags_of (item : object) : list value :=
  match field item "qcFlags" with
  | VArr flags => flags
  | _ => []
  end.

(** The data model of the records: the annotation collection is absent,
    null, or an array whose elements are not nullish. *)
Definition well_typed_flags (qcFlags : value) : bool :=
  match qcFlags with
  | VUndefined | VNull => true
  | VArr flags => forallb (fun flag => negb (is_nullish flag)) flags
  | _ => false
  end.

Definition well_typed_item (item : object) : bool :=
  well_typed_flags (field item "qcFlags").

(** The category of an annotation: the key its detector name yields, when
    it has a name that counts. *)
Definition category_of (flag : value) : option string :=
  let name := opt_member (member flag "detector") "name" in
  if is_truthy name then Some (to_property_key name) else None.

Definition in_category (c : string) (flag : value) : bool :=
  match category_of flag with
  | Some c' => c' =? c
  | None => false
  end.

(** All category names across a batch. *)
Definition categories (items : list object) : list string :=
  flat_map
    (fun item =>
       flat_map (fun flag => match category_of flag with
                             | Some c => [c]
                             | None => []
                             end)
                (flags_of item))
    items.

(** "<kind.name or empty> ( from: <from> to: <to> )". *)
Definition kind_name (flag : value) : string :=
  let name := opt_member (member flag "flagType") "name" in
  if is_nullish name then "" else to_string name.

Definition display_text (flag : value) : string :=
  kind_name flag ++ " ( from: " ++ to_string (member flag "from")
  ++ " to: " ++ to_string (member flag "to") ++ " )".


(** The formatter registered for a field key, applied; the raw value when
    none is registered. *)
Definition formatted_value (exportFormats : props field_config) (key : string)
    (raw : value) (item : object) : value :=
  match obj_get key exportFormats with
  | Some {| exportFormat := Some f |} => f raw item
  | _ => raw
  end.

(** The sink call for a selected export type. *)
Definition dispatched (exportType : value) (fileName : string) (rows : list object)
  : event :=
  if strict_eq_str exportType "CSV"
  then CSVExport rows (fileName ++ ".csv") "text/csv;charset=utf-8;"
  else JSONExport rows (fileName ++ ".json") "application/json".


Definition is_fetch (e : event) : bool :=
  match e with
  | Fetch _ => true
  | _ => false
  end.

(** What the loops of [createExport] compute on well-typed records. *)
Definition add_detector (detectors : list value) (flag : value) : list value :=
  let name := opt_member (member flag "detector") "name" in
  if is_truthy name then Set_add name detectors else detectors.

Definition detector_names (items : list object) : list value :=
  fold_left (fun detectors item => fold_left add_detector (flags_of item) detectors)
            items [].

Definition lookup_texts (c : string) (perDetectorFlags : props (list string))
  : list string :=
  match obj_get c perDetectorFlags with
  | Some texts => texts
  | None => []
  end.

Definition add_text (perDetectorFlags : props (list string)) (flag : value)
  : props (list string) :=
  match category_of flag with
  | None => perDetectorFlags
  | Some c =>
      obj_set c (lookup_texts c perDetectorFlags ++ [display_text flag])%list
        (if obj_has c perDetectorFlags then perDetectorFlags
         else obj_set c [] perDetectorFlags)
  end.


(** A name that is not the name of a member of [Object.prototype]. *)
Definition prototype_free (k : string) : bool := negb (is_inherited k).

(** One turn of the loop of lines 141-149, with its throws: a nullish
    annotation cannot be destructured, and a category named like a member
    of [Object.prototype] has no list to push to. *)
Definition add_text_checked (perDetectorFlags : props (list string)) (flag : value)
  : outcome (props (list string)) :=
  if is_nullish flag then Thrown TypeError
  else match category_of flag with
       | None => Returned perDetectorFlags
       | Some c =>
           if obj_has c perDetectorFlags || prototype_free c
           then Returned (add_text perDetectorFlags flag)
           else Thrown TypeError
       end.

(** The categories of the annotations of a collection. *)
Definition categories_in (flags : list value) : list string :=
  flat_map (fun flag => match category_of flag with
                        | Some c => [c]
                        | None => []
                        end) flags.

Definition columns (detectors : list value) (perDetectorFlags : props (list string))
  : list (string * value) :=
  map (fun det =>
         (to_property_key det,
          VStr (join "|" (lookup_texts (to_property_key det) perDetectorFlags))))
      detectors.


(** What [_fetchQcFlags] stores for a run number, given how its request
    settled: the empty list on a rejection or on a response that cannot be
    destructured, the [items] of the response otherwise. *)
Definition stored_flags (settled : fetch_outcome) : value :=
  match settled with
  | Rejects => VArr []
  | Resolves response =>
      if is_nullish response then VArr [] else member response "items"
  end.



(** The query for the flags of one run number. *)
Definition query (dataPassId runNumber : value) : request :=
  {| Host.dataPassId := dataPassId;
     Host.runNumber := runNumber;
     page_limit := 1000 |}.

(** The map [_fetchQcFlags] builds when its requests are the ones numbered
    from [start] on. *)
Fixpoint qc_map (rem : nat -> request -> fetch_outcome) (dataPassId : value)
    (start : nat) (runNumbers : list value) (map : object) : object :=
  match runNumbers with
  | [] => map
  | runNumber :: rest =>
      qc_map rem dataPassId (S start) rest
        (obj_set (to_property_key runNumber)
           (stored_flags (rem start (query dataPassId runNumber))) map)
  end.

(** The requests of a batch, one per run number. *)
Definition requests (dataPassId : value) (runNumbers : list value) : list event :=
  map (fun runNumber => Fetch (query dataPassId runNumber)) runNumbers.

Definition run_numbers (items : list object) : list value :=
  map (fun item => field item "runNumber") items.



End Spec.

(* ================================================================== *)
(** * Sample data *)

Module Sample.
Import JS Host.

Definition qcFlag (detector kind : string) (from to : Z) : value :=
  VObj [ ("detector", VObj [("name", VStr detector)]);
         ("flagType", VObj [("name", VStr kind)]);
         ("from", VNum from);
         ("to", VNum to) ].

(** The record of the scenario of the specification. *)
Definition run_1 : object :=
  [ ("runNumber", VNum 1);
    ("qcFlags", VArr [qcFlag "TPC" "BAD" 10 20]) ].

(** A record with two flags for one detector, and a record with no flags. *)
Definition run_2 : object :=
  [ ("runNumber", VNum 2);
    ("qcFlags", VArr [qcFlag "ITS" "GOOD" 1 5; qcFlag "ITS" "BAD" 5 9]) ].

Definition run_3 : object := [ ("runNumber", VNum 3); ("lhcPeriod", VStr "LHC22a") ].

(** Records with a flag of a detector named like a member of
    [Object.prototype]. *)
Definition run_4 : object :=
  [ ("runNumber", VNum 4);
    ("qcFlags", VArr [qcFlag "constructor" "BAD" 10 20]) ].

Definition run_5 : object :=
  [ ("runNumber", VNum 5);
    ("qcFlags", VArr [qcFlag "toString" "GOOD" 1 5]) ].


Definition overview (items : list object) (exportType : value) : OverviewExportModel.t :=
  {| OverviewExportModel._items := {| getCurrent := Success items |};
     OverviewExportModel._selectedFields := ["runNumber"; "lhcPeriod"];
     OverviewExportModel._selectedExportType := exportType |}.

Definition perDataPass (items : list object) (dataPassId : value)
  : RunsPerDataPassExportModel.t :=
  {| RunsPerDataPassExportModel.super := overview items (VStr "JSON");
     RunsPerDataPassExportModel._dataPassId := dataPassId |}.

(** A remote source whose first request fails and whose later requests
    return one flag. *)
Definition flaky (n : nat) (url : request) : fetch_outcome :=
  match n with
  | O => Rejects
  | S _ => Resolves (VObj [("items", VArr [qcFlag "TPC" "BAD" 10 20])])
  end.

(** A formatter that reads a sibling field. *)
Definition with_period : formatter :=
  fun v item => VStr (to_string v ++ "@" ++ to_string (field item "lhcPeriod")).

End Sample.

(* ================================================================== *)
(** * The order of the columns *)

Module Columns.
Import JS.

(** The place a new key takes among the keys of an object. *)
Fixpoint keys_insert (k : string) (ks : list string) : list string :=
  match ks with
  | [] => [k]
  | k' :: ks' => if key_precedes k k' then k :: ks else k' :: keys_insert k ks'
  end.

(** The keys of an object after a write to [k]. *)
Definition keys_set (ks : list string) (k : string) : list string :=
  if existsb (String.eqb k) ks then ks else keys_insert k ks.

(** The keys of the object built by writing to the given keys in sequence. *)
Definition own_keys_order (written : list string) : list string :=
  fold_left keys_set written [].

(** The distinct elements of a sequence of keys, each at its first
    occurrence. *)
Definition add_key (seen : list string) (k : string) : list string :=
  if existsb (String.eqb k) seen then seen else (seen ++ [k])%list.

Definition first_occurrences (ks : list string) : list string :=
  fold_left add_key ks [].


End Columns.

(* ================================================================== *)
(** * Plain objects *)

Section ObjectFacts.
Import JS.
Local Open Scope list_scope.
Context {V : Type}.
Implicit Types (o : props V) (k : string) (v : V).

Lemma obj_has_true k o : obj_has k o = true <-> In k (obj_keys o).
Proof.
  unfold obj_has. induction o as [|[k' v'] o IH]; simpl.
  - split; [discriminate | tauto].
  - destruct (String.eqb_spec k k') as [->|Hne].
    + split; auto.
    + rewrite IH. split; [auto | intros [H|H]; [congruence | exact H]].
Qed.

Lemma obj_has_false k o : obj_has k o = false <-> ~ In k (obj_keys o).
Proof.
  rewrite <- obj_has_true. destruct (obj_has k o); split; congruence.
Qed.

Lemma obj_get_app k o1 o2 :
  obj_get k (o1 ++ o2) =
  match obj_get k o1 with
  | Some v => Some v
  | None => obj_get k o2
  end.
Proof.
  induction o1 as [|[k' v'] o1 IH]; simpl; [reflexivity|].
  destruct (k =? k'); auto.
Qed.

Lemma obj_get_replace k' k v o :
  obj_get k' (obj_replace k v o) =
  if k' =? k then (if obj_has k o then Some v else None) else obj_get k' o.
Proof.
  unfold obj_has. induction o as [|[k0 v0] o IH]; simpl.
  - destruct (k' =? k); reflexivity.
  - destruct (String.eqb_spec k k0) as [->|Hne]; simpl.
    + destruct (k' =? k0); reflexivity.
    + rewrite IH. destruct (String.eqb_spec k' k) as [->|Hne'].
      * destruct (String.eqb_spec k k0); [contradiction | reflexivity].
      * reflexivity.
Qed.

Lemma obj_get_insert_other k' k v o :
  k' <> k -> obj_get k' (obj_insert k v o) = obj_get k' o.
Proof.
  intros Hne. induction o as [|[k0 v0] o IH]; simpl.
  - destruct (String.eqb_spec k' k); [contradiction | reflexivity].
  - destruct (key_precedes k k0); simpl.
    + destruct (String.eqb_spec k' k); [contradiction | reflexivity].
    + rewrite IH. reflexivity.
Qed.

Lemma obj_get_insert_same k v o :
  obj_has k o = false -> obj_get k (obj_insert k v o) = Some v.
Proof.
  unfold obj_has. induction o as [|[k0 v0] o IH]; simpl; intros H.
  - rewrite String.eqb_refl. reflexivity.
  - destruct (String.eqb_spec k k0) as [->|Hne]; [discriminate|].
    destruct (key_precedes k k0); simpl.
    + rewrite String.eqb_refl. reflexivity.
    + destruct (String.eqb_spec k k0); [contradiction | auto].
Qed.

(** Reading after writing. *)
Lemma obj_get_set k' k v o :
  obj_get k' (obj_set k v o) = if k' =? k then Some v else obj_get k' o.
Proof.
  unfold obj_set. destruct (obj_has k o) eqn:Hk.
  - rewrite obj_get_replace, Hk. reflexivity.
  - destruct (String.eqb_spec k' k) as [->|Hne].
    + apply obj_get_insert_same, Hk.
    + apply obj_get_insert_other, Hne.
Qed.

Lemma obj_has_set k' k v o :
  obj_has k' (obj_set k v o) = (k' =? k) || obj_has k' o.
Proof.
  unfold obj_has at 1. rewrite obj_get_set.
  destruct (k' =? k); reflexivity.
Qed.

(** Reading a built object yields the last entry written for the key. *)
Lemma obj_get_fold_set k (es : list (string * V)) o :
  obj_get k (fold_left (fun o e => obj_set (fst e) (snd e) o) es o) =
  match obj_get k (rev es) with
  | Some v => Some v
  | None => obj_get k o
  end.
Proof.
  revert o. induction es as [|[k0 v0] es IH]; intros o; simpl; [reflexivity|].
  rewrite IH, obj_get_app, obj_get_set. simpl.
  destruct (obj_get k (rev es)); [reflexivity|].
  destruct (k =? k0); reflexivity.
Qed.

Lemma obj_get_fromEntries k (es : list (string * V)) :
  obj_get k (fromEntries es) = obj_get k (rev es).
Proof.
  unfold fromEntries. rewrite obj_get_fold_set. simpl.
  destruct (obj_get k (rev es)); reflexivity.
Qed.


(** Entries computed from their key: the value read depends on the key only. *)
Lemma obj_get_map_key (g : string -> V) k (keys : list string) :
  obj_get k (map (fun key => (key, g key)) keys) =
  if existsb (String.eqb k) keys then Some (g k) else None.
Proof.
  induction keys as [|k0 keys IH]; simpl; [reflexivity|].
  destruct (String.eqb_spec k k0) as [->|Hne]; simpl; auto.
Qed.

End ObjectFacts.

Section ObjectEntries.
Import JS.
Local Open Scope list_scope.
Context {V : Type}.
Implicit Types (o : props V) (k : string) (v : V).

Lemma obj_get_In k v o : obj_get k o = Some v -> In (k, v) o.
Proof.
  induction o as [|[k' v'] o IH]; simpl; [discriminate|].
  destruct (String.eqb_spec k k') as [->|Hne].
  - intros [= ->]. now left.
  - intros H. right. auto.
Qed.

Lemma In_obj_replace e k v o : In e (obj_replace k v o) -> e = (k, v) \/ In e o.
Proof.
  induction o as [|[k' v'] o IH]; simpl; [tauto|].
  destruct (k =? k'); simpl; intros [H|H]; auto.
  destruct (IH H); auto.
Qed.

Lemma In_obj_insert e k v o : In e (obj_insert k v o) -> e = (k, v) \/ In e o.
Proof.
  induction o as [|[k' v'] o IH]; simpl.
  - intros [H|[]]; auto.
  - destruct (key_precedes k k'); simpl; intros [H|H]; auto.
    destruct (IH H); auto.
Qed.

Lemma In_obj_set e k v o : In e (obj_set k v o) -> e = (k, v) \/ In e o.
Proof.
  unfold obj_set. destruct (obj_has k o).
  - apply In_obj_replace.
  - apply In_obj_insert.
Qed.

(** A built object holds entries it was built from, nothing else. *)
Lemma In_fromEntries e (es : list (string * V)) : In e (fromEntries es) -> In e es.
Proof.
  unfold fromEntries.
  enough (forall o, In e (fold_left (fun o e => obj_set (fst e) (snd e) o) es o) ->
                    In e es \/ In e o) as H.
  { intros Hin. destruct (H [] Hin) as [|[]]; assumption. }
  induction es as [|[k v] es IH]; intros o; simpl; [auto|].
  intros Hin. destruct (IH _ Hin) as [H|H]; [auto|].
  destruct (In_obj_set _ _ _ _ H); auto.
Qed.

End ObjectEntries.

(* ================================================================== *)
(** * Projection and formatting of the selected fields *)

Section Projection.
Import JS Host Spec.
Local Open Scope list_scope.

Lemma existsb_eqb_In (k : string) (l : list string) :
  existsb (String.eqb k) l = true <-> In k l.
Proof.
  rewrite existsb_exists. split.
  - intros [x [Hin Heq]]. apply String.eqb_eq in Heq. now subst.
  - intros Hin. exists k. split; [assumption | apply String.eqb_refl].
Qed.

Lemma obj_get_pick (k : string) (item : object) (keys : list string) :
  obj_get k (pick item keys) =
  if existsb (String.eqb k) keys && obj_has k item
  then Some (field item k) else None.
Proof.
  unfold pick. rewrite obj_get_fromEntries, <- map_rev.
  rewrite (obj_get_map_key (fun key => field item key)).
  replace (existsb (String.eqb k) (rev (filter (fun key => obj_has key item) keys)))
    with (existsb (String.eqb k) keys && obj_has k item); [reflexivity|].
  apply Bool.eq_iff_eq_true.
  rewrite Bool.andb_true_iff, !existsb_eqb_In, <- in_rev, filter_In. tauto.
Qed.

Lemma In_pick (k : string) (raw : value) (item : object) (keys : list string) :
  In (k, raw) (pick item keys) <->
  In k keys /\ obj_has k item = true /\ raw = field item k.
Proof.
  split.
  - intros Hin. unfold pick in Hin. apply In_fromEntries in Hin.
    apply in_map_iff in Hin. destruct Hin as [key [[= -> ->] Hkey]].
    apply filter_In in Hkey. tauto.
  - intros (Hk & Hhas & ->). apply obj_get_In. rewrite obj_get_pick, Hhas.
    apply existsb_eqb_In in Hk. rewrite Hk. reflexivity.
Qed.

Lemma formatter_of_formatted_value exportFormats key raw item :
  OverviewExportModel.formatter_of exportFormats key raw item =
  formatted_value exportFormats key raw item.
Proof.
  unfold OverviewExportModel.formatter_of, formatted_value.
  destruct (obj_get key exportFormats) as [[[f|]]|]; reflexivity.
Qed.

Lemma In_mapped exportFormats selectedFields item (k : string) (v : value) :
  In (k, v) (OverviewExportModel.mapped exportFormats selectedFields item) <->
  In k selectedFields /\ obj_has k item = true /\
  v = formatted_value exportFormats k (field item k) item.
Proof.
  unfold OverviewExportModel.mapped, entries. rewrite in_map_iff. split.
  - intros [[key raw] [[= -> <-] Hin]]. apply In_pick in Hin.
    destruct Hin as (Hk & Hhas & ->).
    rewrite formatter_of_formatted_value. auto.
  - intros (Hk & Hhas & ->). exists (k, field item k). split.
    + rewrite formatter_of_formatted_value. reflexivity.
    + apply In_pick. auto.
Qed.

Lemma mapped_keys exportFormats selectedFields item (k : string) :
  In k (map fst (OverviewExportModel.mapped exportFormats selectedFields item)) <->
  In k selectedFields /\ obj_has k item = true.
Proof.
  rewrite in_map_iff. split.
  - intros [[k' v] [Hk Hin]]. simpl in Hk. subst k'.
    apply In_mapped in Hin. tauto.
  - intros [Hk Hhas].
    exists (k, formatted_value exportFormats k (field item k) item).
    split; [reflexivity|]. apply In_mapped. auto.
Qed.

End Projection.

(* ================================================================== *)
(** * The loops over the annotations *)

Section Annotations.
Import JS Host Spec.
Local Open Scope list_scope.

Lemma number_pos_same (x y : Z) :
  match double_of x, double_of y with
  | Some a, Some b => (a =? b)%Z
  | None, None => true
  | _, _ => false
  end = true ->
  number_pos x = number_pos y.
Proof.
  unfold number_pos. destruct (double_of x), (double_of y); try discriminate.
  - intros H. apply Z.eqb_eq in H. now subst.
  - reflexivity.
Qed.

Lemma number_eqb_to_string (x y : Z) :
  number_eqb x y = true -> number_to_string x = number_to_string y.
Proof.
  unfold number_eqb, number_to_string. intros H.
  apply Bool.andb_true_iff in H. destruct H as [Hs Hd].
  apply number_pos_same in Hd.
  destruct x, y; simpl in *; try discriminate; congruence.
Qed.

(** Two values that are the same value for a [Set] give the same key. *)
Lemma same_value_zero_key (a b : value) :
  same_value_zero a b = true -> to_property_key a = to_property_key b.
Proof.
  destruct a, b; simpl; try discriminate; try reflexivity.
  - intros H. apply Bool.eqb_prop in H. now subst.
  - apply number_eqb_to_string.
  - intros H. apply String.eqb_eq in H. now subst.
Qed.

Lemma In_Set_add (x a : value) (s : list value) :
  In x (Set_add a s) -> x = a \/ In x s.
Proof.
  unfold Set_add. destruct (existsb (same_value_zero a) s); [auto|].
  rewrite in_app_iff. simpl. intuition.
Qed.

Lemma Set_add_keys (k : string) (a : value) (s : list value) :
  In k (map to_property_key (Set_add a s)) <->
  k = to_property_key a \/ In k (map to_property_key s).
Proof.
  unfold Set_add. destruct (existsb (same_value_zero a) s) eqn:He.
  - split; [auto|]. intros [->|H]; [|exact H].
    apply existsb_exists in He. destruct He as [b [Hb Hab]].
    apply same_value_zero_key in Hab. rewrite Hab. now apply in_map.
  - rewrite map_app, in_app_iff. simpl. intuition.
Qed.

(** A loop whose body cannot throw is a fold. *)
Lemma ofold_pure {A S : Type} (f : S -> A -> outcome S) (g : S -> A -> S)
    (l : list A) :
  (forall s a, In a l -> f s a = Returned (g s a)) ->
  forall s, ofold f l s = Returned (fold_left g l s).
Proof.
  induction l as [|a l IH]; intros Hf s; simpl; [reflexivity|].
  rewrite Hf by now left. simpl. apply IH. intros s' a' Ha. apply Hf. now right.
Qed.


Lemma opt_forEach_pure {S : Type} (qcFlags : value) (f : S -> value -> outcome S)
    (g : S -> value -> S) :
  well_typed_flags qcFlags = true ->
  (forall s flag, is_nullish flag = false -> f s flag = Returned (g s flag)) ->
  forall s,
    opt_forEach qcFlags f s =
    Returned (fold_left g (match qcFlags with VArr flags => flags | _ => [] end) s).
Proof.
  intros Hwt Hf s. destruct qcFlags; simpl in *; try reflexivity; try discriminate.
  apply ofold_pure. intros s' flag Hin. apply Hf.
  rewrite forallb_forall in Hwt. specialize (Hwt _ Hin).
  now destruct (is_nullish flag).
Qed.


Lemma opt_member_truthy (v : value) (k : string) :
  is_truthy (opt_member v k) = true -> opt_member v k = member v k.
Proof.
  unfold opt_member. destruct (is_nullish v); [discriminate | reflexivity].
Qed.

Lemma detectors_step (detectors : list value) (flag : value) :
  is_nullish flag = false ->
  obind (destructure flag) (fun flag =>
    let detector := member flag "detector" in
    if is_truthy (opt_member detector "name")
    then Returned (Set_add (member detector "name") detectors)
    else Returned detectors)
  = Returned (add_detector detectors flag).
Proof.
  intros Hn. unfold destructure, add_detector. rewrite Hn. simpl.
  destruct (is_truthy (opt_member (member flag "detector") "name")) eqn:Ht;
    [|reflexivity].
  now rewrite (opt_member_truthy _ _ Ht).
Qed.

(** On well-typed records the detector scan returns, with the names met. *)
Lemma detectors_well_typed (items : list object) :
  forallb well_typed_item items = true ->
  OverviewExportModel.detectors items = Returned (detector_names items).
Proof.
  intros Hwt. unfold OverviewExportModel.detectors, detector_names.
  apply ofold_pure. intros ds item Hin.
  rewrite forallb_forall in Hwt. specialize (Hwt _ Hin).
  unfold flags_of.
  apply (opt_forEach_pure (field item "qcFlags") _ add_detector Hwt).
  intros s flag Hn. apply detectors_step, Hn.
Qed.

Lemma fold_add_detector_keys (k : string) (flags : list value) (ds : list value) :
  In k (map to_property_key (fold_left add_detector flags ds)) <->
  In k (map to_property_key ds) \/
  In k (flat_map (fun flag => match category_of flag with
                              | Some c => [c]
                              | None => []
                              end) flags).
Proof.
  revert ds. induction flags as [|flag flags IH]; intros ds; simpl; [tauto|].
  rewrite IH, in_app_iff. unfold add_detector, category_of at 2.
  destruct (is_truthy (opt_member (member flag "detector") "name")); simpl.
  - rewrite Set_add_keys. intuition.
  - tauto.
Qed.

(** The keys of the names met are the categories of the batch. *)
Lemma detector_names_keys (k : string) (items : list object) :
  In k (map to_property_key (detector_names items)) <-> In k (categories items).
Proof.
  unfold detector_names, categories.
  enough (forall ds,
    In k (map to_property_key
            (fold_left (fun ds item => fold_left add_detector (flags_of item) ds)
                       items ds)) <->
    In k (map to_property_key ds) \/
    In k (flat_map (fun item =>
            flat_map (fun flag => match category_of flag with
                                  | Some c => [c]
                                  | None => []
                                  end) (flags_of item)) items)) as H.
  { rewrite H. simpl. tauto. }
  induction items as [|item items IH]; intros ds; simpl; [tauto|].
  rewrite IH, fold_add_detector_keys, in_app_iff. tauto.
Qed.

Lemma flag_text_display (flag : value) :
  OverviewExportModel.flag_text (member flag "flagType") (member flag "from")
    (member flag "to") = display_text flag.
Proof.
  unfold OverviewExportModel.flag_text, display_text, kind_name, nullish_or.
  destruct (is_nullish (opt_member (member flag "flagType") "name")); reflexivity.
Qed.







End Annotations.

(* ================================================================== *)
(** * The exported rows *)

Section Rows.
Import JS Host Spec.
Local Open Scope list_scope.








End Rows.

(* ================================================================== *)
(** * Runs of [OverviewExportModel.createExport] *)

Section BaseRuns.
Import JS Host Spec.
Local Open Scope list_scope.

Lemma run_emit (rem : nat -> request -> fetch_outcome) (e : event) :
  run rem (emit e) = (Returned tt, [e]).
Proof. reflexivity. Qed.



Lemma createExport_empty (this : OverviewExportModel.t) (fileName : string)
    (exportFormats : props field_config) (setError : bool) :
  isSuccess (getCurrent (OverviewExportModel._items this)) = false \/
  getCurrent (OverviewExportModel._items this) = Success [] ->
  forall w,
    OverviewExportModel.createExport this fileName exportFormats setError w =
    bind (when setError (emit (SetError OverviewExportModel.no_data_found)))
         (fun _ => emit Notify) w.
Proof.
  intros H w. unfold OverviewExportModel.createExport.
  destruct H as [H|H].
  - rewrite H. reflexivity.
  - rewrite H. reflexivity.
Qed.


End BaseRuns.

(* ================================================================== *)
(** * The enrichment of [RunsPerDataPassExportModel] *)

Section Enrichment.
Import JS Host Spec.
Local Open Scope list_scope.


(** The requests are issued one per run number, in order, and the method
    returns whatever the remote source does. *)
Lemma fetchQcFlags_loop (this : RunsPerDataPassExportModel.t) (runNumbers : list value) :
  forall (map : object) (w : world),
    for_of
      (fun map runNumber =>
         try_catch
           (bind (getRemoteDataSlice
                    {| dataPassId := RunsPerDataPassExportModel._dataPassId this;
                       runNumber := runNumber;
                       page_limit := 1000 |}) (fun response =>
            bind (lift (destructure response)) (fun response =>
            ret (obj_set (to_property_key runNumber) (member response "items") map))))
           (fun _ => ret (obj_set (to_property_key runNumber) (VArr []) map)))
      runNumbers map w
    = (Returned (qc_map (remote w) (RunsPerDataPassExportModel._dataPassId this)
                   (issued w) runNumbers map),
       {| trace := trace w ++ requests (RunsPerDataPassExportModel._dataPassId this) runNumbers;
          remote := remote w;
          issued := issued w + List.length runNumbers |}).
Proof.
  induction runNumbers as [|runNumber rest IH]; intros map w.
  - simpl. unfold ret. destruct w; simpl. now rewrite app_nil_r, Nat.add_0_r.
  - cbn [for_of qc_map requests List.map List.length].
    unfold bind at 1. unfold try_catch, getRemoteDataSlice, bind, lift, ret, destructure,
      stored_flags.
    unfold query.
    destruct (remote w (issued w) _) as [|response];
      [|destruct (is_nullish response)];
      rewrite IH; cbn [trace remote issued];
      now rewrite <- app_assoc, Nat.add_succ_r.
Qed.

Lemma fetchQcFlags_run (this : RunsPerDataPassExportModel.t) (runNumbers : list value)
    (w : world) :
  RunsPerDataPassExportModel._fetchQcFlags this runNumbers w =
  (Returned (qc_map (remote w) (RunsPerDataPassExportModel._dataPassId this)
                (issued w) runNumbers []),
   {| trace := trace w ++ requests (RunsPerDataPassExportModel._dataPassId this) runNumbers;
      remote := remote w;
      issued := issued w + List.length runNumbers |}).
Proof. apply fetchQcFlags_loop. Qed.

(** Later requests for other run numbers leave an entry alone. *)
Lemma qc_map_untouched (rem : nat -> request -> fetch_outcome) (id : value)
    (k : string) (runNumbers : list value) :
  (forall rn, In rn runNumbers -> to_property_key rn <> k) ->
  forall start map,
    obj_get k (qc_map rem id start runNumbers map) = obj_get k map.
Proof.
  induction runNumbers as [|rn rest IH]; intros Hk start map; simpl; [reflexivity|].
  rewrite IH by (intros rn' Hin; apply Hk; now right).
  rewrite obj_get_set.
  destruct (String.eqb_spec k (to_property_key rn)) as [->|Hne]; [|reflexivity].
  exfalso. apply (Hk rn); [now left | reflexivity].
Qed.

(** The entry of a run number is what its last request left. *)
Lemma qc_map_last (rem : nat -> request -> fetch_outcome) (id : value)
    (runNumbers : list value) :
  forall (i start : nat) (map : object) (rn : value),
    nth_error runNumbers i = Some rn ->
    (forall j rn', i < j -> nth_error runNumbers j = Some rn' ->
                   to_property_key rn' <> to_property_key rn) ->
    obj_get (to_property_key rn) (qc_map rem id start runNumbers map) =
    Some (stored_flags (rem (start + i) (query id rn))).
Proof.
  induction runNumbers as [|rn0 rest IH]; intros i start map rn Hi Hlast.
  - destruct i; discriminate.
  - destruct i as [|i]; simpl in Hi.
    + injection Hi as ->. simpl. rewrite qc_map_untouched.
      * now rewrite obj_get_set, String.eqb_refl, Nat.add_0_r.
      * intros rn' Hin. apply In_nth_error in Hin. destruct Hin as [j Hj].
        apply (Hlast (S j)); [lia | exact Hj].
    + simpl. rewrite (IH i (S start) _ rn Hi).
      * now rewrite Nat.add_succ_r.
      * intros j rn' Hlt Hj. apply (Hlast (S j)); [lia | exact Hj].
Qed.





End Enrichment.

(* ================================================================== *)
(** * Runs of [RunsPerDataPassExportModel.createExport] *)

Section SpecializedRuns.
Import JS Host Spec.
Local Open Scope list_scope.

(** Formatting and dispatch, as a run: the rows do not depend on the export
    type, which only picks the sink. *)
Lemma pipeline_run (exportType : value) (selectedFields : list string)
    (fileName : string) (exportFormats : props field_config) (items : list object)
    (w : world) :
  bind (lift (OverviewExportModel.detectors items)) (fun detectors =>
  bind (lift (OverviewExportModel.formatted exportFormats selectedFields detectors items))
       (fun formatted => emit (dispatched exportType fileName formatted))) w
  = match obind (OverviewExportModel.detectors items)
            (fun detectors =>
               OverviewExportModel.formatted exportFormats selectedFields detectors items)
    with
    | Returned rows =>
        (Returned tt,
         {| trace := trace w ++ [dispatched exportType fileName rows];
            remote := remote w;
            issued := issued w |})
    | Thrown e => (Thrown e, w)
    end.
Proof.
  unfold bind, lift, obind.
  destruct (OverviewExportModel.detectors items) as [detectors|]; [|reflexivity].
  destruct (OverviewExportModel.formatted _ _ detectors items); reflexivity.
Qed.

Lemma createExport_nonempty (this : OverviewExportModel.t) (fileName : string)
    (exportFormats : props field_config) (setError : bool) (payload : list object) :
  getCurrent (OverviewExportModel._items this) = Success payload ->
  payload <> [] ->
  forall w,
    OverviewExportModel.createExport this fileName exportFormats setError w =
    bind (lift (OverviewExportModel.detectors payload)) (fun detectors =>
    bind (lift (OverviewExportModel.formatted exportFormats
                  (OverviewExportModel.getSelectedFields this) detectors payload))
         (fun formatted =>
            emit (dispatched (OverviewExportModel.getSelectedExportType this)
                    fileName formatted))) w.
Proof.
  intros Hsnap Hne w. unfold OverviewExportModel.createExport.
  rewrite Hsnap. destruct payload as [|item items]; [contradiction|].
  cbn [isSuccess negb orb List.length Nat.eqb].
  unfold bind, lift, dispatched.
  destruct (OverviewExportModel.detectors _) as [detectors|]; [|reflexivity].
  destruct (OverviewExportModel.formatted _ _ detectors _); [|reflexivity].
  destruct (strict_eq_str _ "CSV"); reflexivity.
Qed.

(** With a falsy data pass id the override is the inherited method. *)
Lemma createExport_falsy_id (this : RunsPerDataPassExportModel.t) (fileName : string)
    (exportFormats : props field_config) (setError : bool) (w : world) :
  is_truthy (RunsPerDataPassExportModel._dataPassId this) = false ->
  RunsPerDataPassExportModel.createExport this fileName exportFormats setError w =
  OverviewExportModel.createExport (RunsPerDataPassExportModel.super this)
    fileName exportFormats setError w.
Proof.
  intros Hid.
  unfold RunsPerDataPassExportModel.createExport,
    RunsPerDataPassExportModel.createExport_with, OverviewExportModel.createExport.
  destruct (negb _ || _); [reflexivity|].
  rewrite Hid. reflexivity.
Qed.

(** With a truthy data pass id and a non-empty batch: the requests, then the
    export of the enriched records. *)
Lemma createExport_enriched (this : RunsPerDataPassExportModel.t) (fileName : string)
    (exportFormats : props field_config) (setError : bool) (payload : list object)
    (w : world) :
  getCurrent (OverviewExportModel._items (RunsPerDataPassExportModel.super this))
  = Success payload ->
  payload <> [] ->
  is_truthy (RunsPerDataPassExportModel._dataPassId this) = true ->
  RunsPerDataPassExportModel.createExport this fileName exportFormats setError w =
  RunsPerDataPassExportModel.export_items this fileName exportFormats
    (map (RunsPerDataPassExportModel.with_flags
            (qc_map (remote w) (RunsPerDataPassExportModel._dataPassId this)
               (issued w) (run_numbers payload) []))
         payload)
    {| trace := trace w ++ requests (RunsPerDataPassExportModel._dataPassId this)
                             (run_numbers payload);
       remote := remote w;
       issued := issued w + List.length (run_numbers payload) |}.
Proof.
  intros Hsnap Hne Hid.
  unfold RunsPerDataPassExportModel.createExport,
    RunsPerDataPassExportModel.createExport_with.
  rewrite Hsnap, Hid. destruct payload as [|item items]; [contradiction|].
  cbn [isSuccess negb orb List.length Nat.eqb].
  unfold bind at 1. unfold try_catch. unfold bind at 1.
  fold (run_numbers (item :: items)).
  rewrite fetchQcFlags_run. reflexivity.
Qed.

(** The base export issues no request. *)
Lemma createExport_no_request (this : OverviewExportModel.t) (fileName : string)
    (exportFormats : props field_config) (setError : bool) (w : world) :
  exists (r : outcome unit) (events : list event),
    OverviewExportModel.createExport this fileName exportFormats setError w =
    (r, {| trace := trace w ++ events; remote := remote w; issued := issued w |}) /\
    existsb is_fetch events = false.
Proof.
  unfold OverviewExportModel.createExport.
  destruct (negb _ || _).
  - destruct setError.
    + exists (Returned tt), [SetError OverviewExportModel.no_data_found; Notify].
      split; [|reflexivity]. unfold bind, when, emit. simpl.
      now rewrite <- app_assoc.
    + exists (Returned tt), [Notify]. split; reflexivity.
  - unfold bind, lift.
    destruct (OverviewExportModel.detectors _) as [detectors|e].
    + destruct (OverviewExportModel.formatted _ _ detectors _) as [rows|e].
      * destruct (strict_eq_str _ "CSV"); eexists _, [_]; split; reflexivity.
      * exists (Thrown e), []. split; [|reflexivity].
        destruct w; simpl. now rewrite app_nil_r.
    + exists (Thrown e), []. split; [|reflexivity].
      destruct w; simpl. now rewrite app_nil_r.
Qed.



(** The empty-result path of both models. *)
Lemma createExport_empty_runs (this : RunsPerDataPassExportModel.t)
    (fileName : string) (exportFormats : props field_config) (setError : bool)
    (rem : nat -> request -> fetch_outcome) :
  isSuccess (getCurrent (OverviewExportModel._items (RunsPerDataPassExportModel.super this)))
  = false \/
  getCurrent (OverviewExportModel._items (RunsPerDataPassExportModel.super this))
  = Success [] ->
  run rem (OverviewExportModel.createExport (RunsPerDataPassExportModel.super this)
             fileName exportFormats setError)
  = (Returned tt,
     (if setError then [SetError OverviewExportModel.no_data_found] else []) ++ [Notify])
  /\
  run rem (RunsPerDataPassExportModel.createExport this fileName exportFormats setError)
  = (Returned tt,
     (if setError then [SetError OverviewExportModel.no_data_found] else []) ++ [Notify]).
Proof.
  intros H. split.
  - unfold run. rewrite createExport_empty by exact H.
    destruct setError; reflexivity.
  - unfold run, RunsPerDataPassExportModel.createExport,
      RunsPerDataPassExportModel.createExport_with.
    destruct H as [H|H].
    + destruct (getCurrent _); try discriminate; destruct setError; reflexivity.
    + rewrite H. destruct setError; reflexivity.
Qed.

End SpecializedRuns.

(* ================================================================== *)
(** * Throws of the export *)

Section IllTyped.
Import JS Host Spec.
Local Open Scope list_scope.

(** A loop over a list throws what its body throws. *)
Lemma ofold_thrown {A S : Type} (f : S -> A -> outcome S) (l : list A) (e : error) :
  forall s, ofold f l s = Thrown e -> exists s' a, In a l /\ f s' a = Thrown e.
Proof.
  induction l as [|a l IH]; intros s H; simpl in H; [discriminate|].
  destruct (f s a) as [s'|e'] eqn:Hf; simpl in H.
  - destruct (IH _ H) as [s'' [a' [Hin Hthrow]]]. exists s'', a'. split; [now right | exact Hthrow].
  - injection H as ->. exists s, a. split; [now left | exact Hf].
Qed.


Lemma opt_forEach_thrown {S : Type} (qcFlags : value) (f : S -> value -> outcome S)
    (s : S) (e : error) :
  (forall s' flag e', f s' flag = Thrown e' -> e' = TypeError) ->
  opt_forEach qcFlags f s = Thrown e -> e = TypeError.
Proof.
  intros Hf H. destruct qcFlags; simpl in H; try discriminate;
    try (now injection H as <-).
  apply ofold_thrown in H. destruct H as [s' [a [_ Hthrow]]]. exact (Hf _ _ _ Hthrow).
Qed.


Lemma opt_forEach_ext {S : Type} (qcFlags : value) (f g : S -> value -> outcome S)
    (s : S) :
  (forall s' flag, f s' flag = g s' flag) ->
  opt_forEach qcFlags f s = opt_forEach qcFlags g s.
Proof.
  intros H. destruct qcFlags as [| | | | |elems|]; simpl; try reflexivity.
  revert s. induction elems as [|flag elems IH]; intros s; simpl; [reflexivity|].
  rewrite H. destruct (g s flag); simpl; [apply IH | reflexivity].
Qed.

(** The grouping of lines 138-149, turn by turn. *)
Lemma perDetectorFlags_checked (item : object) :
  OverviewExportModel.perDetectorFlags item =
  opt_forEach (field item "qcFlags") add_text_checked [].
Proof.
  unfold OverviewExportModel.perDetectorFlags. apply opt_forEach_ext.
  intros acc flag. unfold add_text_checked, destructure.
  destruct (is_nullish flag) eqn:Hn; [reflexivity|]. simpl.
  unfold category_of, add_text, category_of.
  destruct (is_truthy (opt_member (member flag "detector") "name")); simpl;
    [|reflexivity].
  rewrite flag_text_display. unfold lookup_texts, obj_has, literal_get, prototype_free.
  set (c := to_property_key (opt_member (member flag "detector") "name")).
  destruct (obj_get c acc) as [texts|] eqn:Hc; simpl.
  - rewrite Hc. reflexivity.
  - destruct (is_inherited c); simpl; [now rewrite Hc|].
    rewrite obj_get_set, String.eqb_refl. reflexivity.
Qed.

Lemma perDetectorFlags_thrown (item : object) (e : error) :
  OverviewExportModel.perDetectorFlags item = Thrown e -> e = TypeError.
Proof.
  rewrite perDetectorFlags_checked. intros H.
  apply opt_forEach_thrown in H; [exact H|].
  intros s' flag e' Hcb. unfold add_text_checked in Hcb.
  destruct (is_nullish flag); [now injection Hcb as <-|].
  destruct (category_of flag) as [c|]; [|discriminate].
  destruct (obj_has c s' || prototype_free c); [discriminate | now injection Hcb as <-].
Qed.



(** What a loop keeps true at every turn is true of what it returns. *)
Lemma ofold_invariant {A S : Type} (P : S -> Prop) (f : S -> A -> outcome S)
    (l : list A) :
  (forall s a s', P s -> f s a = Returned s' -> P s') ->
  forall s s', P s -> ofold f l s = Returned s' -> P s'.
Proof.
  intros Hstep. induction l as [|a l IH]; intros s s' Hs H; simpl in H.
  - now injection H as <-.
  - destruct (f s a) as [s1|] eqn:Hf; simpl in H; [|discriminate].
    exact (IH _ _ (Hstep _ _ _ Hs Hf) H).
Qed.

(** The grouping never creates an entry under the name of a member of
    [Object.prototype]. *)
Lemma add_text_checked_own (acc acc' : props (list string)) (flag : value) :
  (forall k, is_inherited k = true -> obj_get k acc = None) ->
  add_text_checked acc flag = Returned acc' ->
  forall k, is_inherited k = true -> obj_get k acc' = None.
Proof.
  intros Hacc H k Hk. unfold add_text_checked in H.
  destruct (is_nullish flag); [discriminate|].
  unfold add_text in H.
  destruct (category_of flag) as [c|]; [|injection H as <-; now apply Hacc].
  destruct (obj_has c acc || prototype_free c) eqn:Hc; [|discriminate].
  injection H as <-. unfold obj_has, prototype_free in *.
  rewrite obj_get_set.
  destruct (String.eqb_spec k c) as [->|Hne].
  - rewrite (Hacc c Hk), Hk in Hc. discriminate.
  - destruct (obj_get c acc); [now apply Hacc|].
    rewrite obj_get_set. destruct (String.eqb_spec k c); [contradiction | now apply Hacc].
Qed.

Lemma perDetectorFlags_own (item : object) (acc : props (list string)) :
  OverviewExportModel.perDetectorFlags item = Returned acc ->
  forall k, is_inherited k = true -> obj_get k acc = None.
Proof.
  rewrite perDetectorFlags_checked. intros H.
  destruct (field item "qcFlags") as [| | | | |elems|]; simpl in H;
    try discriminate; try (injection H as <-; reflexivity).
  refine (ofold_invariant
            (fun acc => forall k, is_inherited k = true -> obj_get k acc = None)
            add_text_checked elems _ [] acc _ H).
  - intros s a s' Hs Hf. exact (add_text_checked_own s s' a Hs Hf).
  - reflexivity.
Qed.

(** A category named like a member of [Object.prototype] makes the grouping
    of its record throw. *)
Lemma ofold_add_text_inherited (flags : list value) :
  forallb (fun flag => negb (is_nullish flag)) flags = true ->
  forallb prototype_free (categories_in flags) = false ->
  forall acc,
    (forall k, is_inherited k = true -> obj_get k acc = None) ->
    ofold add_text_checked flags acc = Thrown TypeError.
Proof.
  induction flags as [|flag flags IH]; intros Hwt Hbad acc Hacc; simpl in *;
    [discriminate|].
  apply andb_prop in Hwt. destruct Hwt as [Hn Hwt].
  apply negb_true_iff in Hn.
  destruct (add_text_checked acc flag) as [acc'|e] eqn:Hstep; simpl.
  - apply IH; [exact Hwt | | exact (add_text_checked_own _ _ _ Hacc Hstep)].
    unfold add_text_checked in Hstep. rewrite Hn in Hstep.
    destruct (category_of flag) as [c|]; [|exact Hbad].
    simpl in Hbad. destruct (prototype_free c) eqn:Hc; [exact Hbad|].
    unfold obj_has, prototype_free in *. apply negb_false_iff in Hc.
    rewrite (Hacc c Hc) in Hstep. discriminate.
  - unfold add_text_checked in Hstep. rewrite Hn in Hstep.
    destruct (category_of flag) as [c|]; [|discriminate].
    destruct (obj_has c acc || prototype_free c); [discriminate | now injection Hstep as <-].
Qed.

Lemma perDetectorFlags_inherited (item : object) :
  well_typed_item item = true ->
  forallb prototype_free (categories_in (flags_of item)) = false ->
  OverviewExportModel.perDetectorFlags item = Thrown TypeError.
Proof.
  intros Hwt Hbad. rewrite perDetectorFlags_checked.
  unfold well_typed_item, flags_of in *.
  destruct (field item "qcFlags") as [| | | | |elems|]; simpl in *; try discriminate.
  apply ofold_add_text_inherited; auto.
Qed.

(** A detector named like a member of [Object.prototype] makes the columns
    of every record throw. *)
Lemma detector_columns_inherited (detectors : list value) (acc : props (list string)) :
  (forall k, is_inherited k = true -> obj_get k acc = None) ->
  forallb prototype_free (map to_property_key detectors) = false ->
  OverviewExportModel.detector_columns detectors acc = Thrown TypeError.
Proof.
  intros Hacc. unfold OverviewExportModel.detector_columns.
  induction detectors as [|det detectors IH]; intros Hbad; simpl in *; [discriminate|].
  unfold literal_get at 1. unfold prototype_free in Hbad at 1.
  destruct (is_inherited (to_property_key det)) eqn:Hdet; simpl in Hbad.
  - rewrite (Hacc _ Hdet). reflexivity.
  - rewrite (IH Hbad). destruct (obj_get _ acc); reflexivity.
Qed.

Lemma formatted_inherited exportFormats selectedFields detectors (items : list object) :
  items <> [] ->
  forallb prototype_free (map to_property_key detectors) = false ->
  OverviewExportModel.formatted exportFormats selectedFields detectors items =
  Thrown TypeError.
Proof.
  intros Hne Hbad. destruct items as [|item items]; [contradiction|].
  unfold OverviewExportModel.formatted. simpl.
  destruct (OverviewExportModel.perDetectorFlags item) as [acc|e] eqn:Hp; simpl.
  - rewrite (detector_columns_inherited _ _ (perDetectorFlags_own _ _ Hp) Hbad).
    reflexivity.
  - now rewrite (perDetectorFlags_thrown _ _ Hp).
Qed.


Lemma forallb_false_In {A : Type} (p : A -> bool) (l : list A) :
  forallb p l = false <-> exists a, In a l /\ p a = false.
Proof.
  induction l as [|a l IH]; simpl.
  - split; [discriminate | intros [a [[] _]]].
  - rewrite andb_false_iff, IH. split.
    + intros [H|[a' [Hin H]]]; [exists a | exists a']; auto.
    + intros [a' [[<-|Hin] H]]; [now left | right; now exists a'].
Qed.

(** Some category of the batch is named like a member of
    [Object.prototype]: so is some detector, and the batch is not empty. *)
Lemma detector_names_inherited (items : list object) :
  forallb prototype_free (categories items) = false ->
  items <> [] /\
  forallb prototype_free (map to_property_key (detector_names items)) = false.
Proof.
  intros H. split; [now destruct items|].
  apply forallb_false_In in H. destruct H as [c [Hin Hc]].
  apply forallb_false_In. exists c. split; [|exact Hc].
  now apply detector_names_keys.
Qed.

(** An ill-typed collection makes the scan of its record throw. *)
Lemma opt_forEach_ill_typed {S : Type} (qcFlags : value) (f : S -> value -> outcome S)
    (s : S) :
  well_typed_flags qcFlags = false ->
  (forall s' flag, is_nullish flag = true -> f s' flag = Thrown TypeError) ->
  (forall s' flag e, f s' flag = Thrown e -> e = TypeError) ->
  opt_forEach qcFlags f s = Thrown TypeError.
Proof.
  intros Hwt Hnull Hthrow.
  destruct qcFlags as [| | | | |elems|]; simpl in *; try discriminate; try reflexivity.
  revert s. induction elems as [|flag elems IH]; intros s; simpl in *; [discriminate|].
  destruct (is_nullish flag) eqn:Hn; simpl in Hwt.
  - now rewrite Hnull.
  - destruct (f s flag) as [s'|e] eqn:Hf; simpl.
    + now apply IH.
    + now rewrite (Hthrow _ _ _ Hf).
Qed.

Lemma detectors_ill_typed (items : list object) :
  forallb well_typed_item items = false ->
  OverviewExportModel.detectors items = Thrown TypeError.
Proof.
  unfold OverviewExportModel.detectors.
  generalize (@nil value) as ds.
  induction items as [|item items IH]; intros ds H; simpl in *; [discriminate|].
  set (scan := fun (detectors : list value) (flag : value) =>
         obind (destructure flag) (fun flag =>
           let detector := member flag "detector" in
           if is_truthy (opt_member detector "name")
           then Returned (Set_add (member detector "name") detectors)
           else Returned detectors)).
  destruct (well_typed_item item) eqn:Hitem; simpl in H.
  - unfold well_typed_item in Hitem.
    rewrite (opt_forEach_pure (field item "qcFlags") scan add_detector Hitem).
    + simpl. now apply IH.
    + intros s flag Hn. apply detectors_step, Hn.
  - rewrite (opt_forEach_ill_typed (field item "qcFlags") scan ds Hitem); [reflexivity| |].
    + intros s' flag Hn. unfold scan, destructure. now rewrite Hn.
    + intros s' flag e Hcb. unfold scan, destructure in Hcb.
      destruct (is_nullish flag); simpl in Hcb; [now injection Hcb as <-|].
      destruct (is_truthy _); discriminate.
Qed.


End IllTyped.

(* ================================================================== *)
(** * The export of the enriched records *)

Section EnrichedExport.
Import JS Host Spec.
Local Open Scope list_scope.










End EnrichedExport.

(* ================================================================== *)
(** * The scenarios of the specification, run *)

Section Scenarios.
Import JS Host Spec.
Local Open Scope list_scope.

(** items = [{runNumber: 1, qcFlags: [TPC, BAD, 10, 20]}] and
    selectedFields = ["runNumber"]. *)
Example scenario_single_run :
  run Sample.flaky
    (OverviewExportModel.createExport
       {| OverviewExportModel._items := {| getCurrent := Success [Sample.run_1] |};
          OverviewExportModel._selectedFields := ["runNumber"];
          OverviewExportModel._selectedExportType := VStr "JSON" |}
       "runs" [] false)
  = (Returned tt,
     [JSONExport
        [ [("runNumber", VNum 1); ("TPC", VStr "BAD ( from: 10 to: 20 )")] ]
        "runs.json" "application/json"]).
Proof. reflexivity. Qed.

(** Two annotations in one category, none in the other. *)
Example scenario_category_flattening :
  run Sample.flaky
    (OverviewExportModel.createExport
       (Sample.overview [Sample.run_1; Sample.run_2] (VStr "CSV")) "runs" [] false)
  = (Returned tt,
     [CSVExport
        [ [("runNumber", VNum 1);
           ("TPC", VStr "BAD ( from: 10 to: 20 )");
           ("ITS", VStr "")];
          [("runNumber", VNum 2);
           ("TPC", VStr "");
           ("ITS", VStr "GOOD ( from: 1 to: 5 )|BAD ( from: 5 to: 9 )")] ]
        "runs.csv" "text/csv;charset=utf-8;"]).
Proof. reflexivity. Qed.

(** A rejected request leaves the record in the export, without flags. *)
Example scenario_rejected_request :
  run Sample.flaky
    (RunsPerDataPassExportModel.createExport
       (Sample.perDataPass [Sample.run_2; Sample.run_3] (VNum 5)) "runs" [] true)
  = (Returned tt,
     [Fetch (query (VNum 5) (VNum 2));
      Fetch (query (VNum 5) (VNum 3));
      JSONExport
        [ [("runNumber", VNum 2); ("TPC", VStr "")];
          [("runNumber", VNum 3); ("lhcPeriod", VStr "LHC22a");
           ("TPC", VStr "BAD ( from: 10 to: 20 )")] ]
        "runs.json" "application/json"]).
Proof. reflexivity. Qed.

(** A collection that is not an array makes the export throw, before any
    sink call. *)
Example scenario_ill_typed_flags :
  run Sample.flaky
    (OverviewExportModel.createExport
       (Sample.overview [ [("runNumber", VNum 4); ("qcFlags", VStr "none")] ] (VStr "CSV"))
       "runs" [] true)
  = (Thrown TypeError, []).
Proof. reflexivity. Qed.

End Scenarios.

(* ================================================================== *)
(** * The properties of the specification *)

Section Properties.
Import JS Host Spec.
Local Open Scope list_scope.

(** C1. When the items snapshot is not a success, or is a success with an
    empty payload, [createExport] of either model calls [setError] once
    with the "No data found" failure when the callback is supplied, then
    notifies, and returns: the run holds no other event, so no sink call. *)
Theorem createExport_no_data (this : RunsPerDataPassExportModel.t)
    (fileName : string) (exportFormats : props field_config) (setError : bool)
    (rem : nat -> request -> fetch_outcome) :
  let snapshot :=
    getCurrent (OverviewExportModel._items (RunsPerDataPassExportModel.super this)) in
  isSuccess snapshot = false \/ snapshot = Success [] ->
  let expected :=
    (Returned tt,
     (if setError
      then [SetError [ {| title := "No data found";
                          detail := "No items were found with the provided filters" |} ]]
      else [])
     ++ [Notify]) in
  run rem (OverviewExportModel.createExport (RunsPerDataPassExportModel.super this)
             fileName exportFormats setError) = expected /\
  run rem (RunsPerDataPassExportModel.createExport this fileName exportFormats setError)
  = expected.
Proof.
  intros snapshot H expected. subst snapshot expected.
  exact (createExport_empty_runs this fileName exportFormats setError rem H).
Qed.

Lemma createExport_no_data_witness :
  let this :=
    RunsPerDataPassExportModel.constructor {| getCurrent := Loading |} (VNum 7) in
  run (fun _ _ => Rejects)
      (RunsPerDataPassExportModel.createExport this "runs" [] true)
  = (Returned tt,
     [SetError [ {| title := "No data found";
                    detail := "No items were found with the provided filters" |} ];
      Notify]).
Proof.
  intros this.
  exact (proj2 (createExport_no_data this "runs" [] true (fun _ _ => Rejects)
                  (or_introl eq_refl))).
Defined.

(** C2. The claim fails on the code: for a batch with a detector named
    [constructor] the grouping of line 145 finds the inherited member of
    the object literal, creates no list, and line 148 throws a TypeError;
    nothing is passed to a sink, so no row has the column of that
    category. *)
Theorem column_keys_fail_on_prototype_named_detector :
  forallb well_typed_item [Sample.run_4] = true /\
  categories [Sample.run_4] = ["constructor"] /\
  OverviewExportModel.perDetectorFlags Sample.run_4 = Thrown TypeError /\
  run Sample.flaky
    (OverviewExportModel.createExport (Sample.overview [Sample.run_4] (VStr "JSON"))
       "runs" [] true)
  = (Thrown TypeError, []).
Proof. repeat split. Qed.



(** C3. The claim fails on the code: in a batch with a detector named
    [toString], a record with no annotation in that category does not get
    the empty string for it: the read of line 151 finds the inherited
    member of the object literal, which has no [join], and a TypeError is
    thrown before any sink call. *)
Theorem category_column_fails_on_prototype_named_detector :
  forallb well_typed_item [Sample.run_3; Sample.run_5] = true /\
  categories [Sample.run_3; Sample.run_5] = ["toString"] /\
  filter (in_category "toString") (flags_of Sample.run_3) = [] /\
  OverviewExportModel.perDetectorFlags Sample.run_3 = Returned [] /\
  OverviewExportModel.detector_columns [VStr "toString"] [] = Thrown TypeError /\
  OverviewExportModel.formatted [] ["runNumber"] [VStr "toString"] [Sample.run_3]
  = Thrown TypeError /\
  run Sample.flaky
    (OverviewExportModel.createExport
       (Sample.overview [Sample.run_3; Sample.run_5] (VStr "JSON")) "runs" [] true)
  = (Thrown TypeError, []).
Proof. repeat split. Qed.



(** C4. The projection of a record holds an entry for a key exactly when
    the key is selected and the record has it, so a selected key the record
    lacks is dropped; the value of the entry is the one the formatter
    registered for the key returns on the raw value and the whole record,
    and the raw value itself when no formatter is registered. *)
Theorem projection_formats_selected_fields (exportFormats : props field_config)
    (selectedFields : list string) (item : object) (k : string) :
  (forall v : value,
     In (k, v) (OverviewExportModel.mapped exportFormats selectedFields item) <->
     In k selectedFields /\ In k (obj_keys item) /\
     v = OverviewExportModel.formatter_of exportFormats k (field item k) item) /\
  (~ In k (obj_keys item) ->
   ~ In k (map fst (OverviewExportModel.mapped exportFormats selectedFields item))) /\
  (forall (f : formatter) (raw : value),
     obj_get k exportFormats = Some {| exportFormat := Some f |} ->
     OverviewExportModel.formatter_of exportFormats k raw item = f raw item) /\
  (forall raw : value,
     obj_get k exportFormats = None \/
     obj_get k exportFormats = Some {| exportFormat := None |} ->
     OverviewExportModel.formatter_of exportFormats k raw item = raw).
Proof.
  split; [|split; [|split]].
  - intros v. rewrite In_mapped, formatter_of_formatted_value, obj_has_true.
    tauto.
  - intros Hno Hin. apply mapped_keys in Hin. destruct Hin as [_ Hhas].
    apply obj_has_true in Hhas. contradiction.
  - intros f raw Hf. unfold OverviewExportModel.formatter_of. now rewrite Hf.
  - intros raw [Hf|Hf]; unfold OverviewExportModel.formatter_of; now rewrite Hf.
Qed.

Lemma projection_formats_selected_fields_witness :
  let exportFormats := [("runNumber", {| exportFormat := Some Sample.with_period |})] in
  let selectedFields := ["runNumber"; "lhcPeriod"; "fillNumber"] in
  In ("runNumber", VStr "3@LHC22a")
     (OverviewExportModel.mapped exportFormats selectedFields Sample.run_3) /\
  ~ In "fillNumber"
      (map fst (OverviewExportModel.mapped exportFormats selectedFields Sample.run_3)) /\
  OverviewExportModel.formatter_of exportFormats "lhcPeriod" (VStr "LHC22a") Sample.run_3
  = VStr "LHC22a".
Proof.
  intros exportFormats selectedFields. split; [|split].
  - apply (proj1 (projection_formats_selected_fields
                    exportFormats selectedFields Sample.run_3 "runNumber")).
    simpl. intuition.
  - apply (proj1 (proj2 (projection_formats_selected_fields
                           exportFormats selectedFields Sample.run_3 "fillNumber"))).
    simpl. intuition discriminate.
  - apply (proj2 (proj2 (proj2 (projection_formats_selected_fields
                                  exportFormats selectedFields Sample.run_3 "lhcPeriod")))).
    left. reflexivity.
Defined.

(** C6. When the enrichment phase throws past the per-record handler, for
    whichever [_fetchQcFlags] the instance carries, [createExport] calls
    [setError] with the "QC flags fetch failed" failure when the callback
    is supplied and returns: after the events of the enrichment itself
    there is no other event, so no sink call. *)
Theorem enrichment_failure_aborts_export
    (fetchQcFlags : RunsPerDataPassExportModel.t -> list value -> Eff object)
    (this : RunsPerDataPassExportModel.t) (fileName : string)
    (exportFormats : props field_config) (setError : bool)
    (rem : nat -> request -> fetch_outcome) (payload : list object) (e : error) (w1 : world) :
  getCurrent (OverviewExportModel._items (RunsPerDataPassExportModel.super this))
  = Success payload ->
  payload <> [] ->
  is_truthy (RunsPerDataPassExportModel._dataPassId this) = true ->
  fetchQcFlags this (map (fun item => field item "runNumber") payload)
    {| trace := []; remote := rem; issued := 0 |} = (Thrown e, w1) ->
  run rem (RunsPerDataPassExportModel.createExport_with fetchQcFlags this fileName
             exportFormats setError)
  = (Returned tt,
     trace w1 ++
     (if setError
      then [SetError [ {| title := "QC flags fetch failed";
                          detail := "Unable to fetch QC flags for export" |} ]]
      else [])).
Proof.
  intros Hsnap Hne Hid Hthrow.
  assert (Hrun :
    RunsPerDataPassExportModel.createExport_with fetchQcFlags this fileName
      exportFormats setError {| trace := []; remote := rem; issued := 0 |}
    = (Returned tt,
       if setError
       then {| trace := trace w1
                        ++ [SetError RunsPerDataPassExportModel.qc_flags_fetch_failed];
               remote := remote w1;
               issued := issued w1 |}
       else w1)).
  { unfold RunsPerDataPassExportModel.createExport_with.
    rewrite Hsnap, Hid. destruct payload as [|item items]; [contradiction|].
    cbn [isSuccess negb orb List.length Nat.eqb].
    unfold bind at 1. unfold try_catch. unfold bind at 1.
    rewrite Hthrow. destruct setError; reflexivity. }
  unfold run. rewrite Hrun. destruct setError; simpl.
  - reflexivity.
  - now rewrite app_nil_r.
Qed.

Lemma enrichment_failure_aborts_export_witness :
  run Sample.flaky
    (RunsPerDataPassExportModel.createExport_with (fun _ _ => throw TypeError)
       (Sample.perDataPass [Sample.run_1] (VNum 5)) "runs" [] true)
  = (Returned tt,
     [SetError [ {| title := "QC flags fetch failed";
                    detail := "Unable to fetch QC flags for export" |} ]]).
Proof.
  apply (enrichment_failure_aborts_export (fun _ _ => throw TypeError)
           (Sample.perDataPass [Sample.run_1] (VNum 5)) "runs" [] true Sample.flaky
           [Sample.run_1] TypeError {| trace := []; remote := Sample.flaky; issued := 0 |}).
  - reflexivity.
  - discriminate.
  - reflexivity.
  - reflexivity.
Defined.

(** C7. With no data pass id configured, [createExport] of the specialized
    model is [createExport] of the base model on the inherited state: the
    same outcome and the same events from any environment. *)
Theorem createExport_without_dataPassId (super : OverviewExportModel.t)
    (fileName : string) (exportFormats : props field_config) (setError : bool)
    (w : world) :
  RunsPerDataPassExportModel.createExport
    {| RunsPerDataPassExportModel.super := super;
       RunsPerDataPassExportModel._dataPassId := VUndefined |}
    fileName exportFormats setError w
  = OverviewExportModel.createExport super fileName exportFormats setError w.
Proof. now apply createExport_falsy_id. Qed.

(** C9. The guard tests the truthiness of the data pass id: with any falsy
    id, among them the number 0, null and undefined, [createExport] of the
    specialized model issues no request and is the base export of the
    records as they are. *)
Theorem falsy_dataPassId_skips_enrichment (this : RunsPerDataPassExportModel.t)
    (dataPassId : value) (fileName : string) (exportFormats : props field_config)
    (setError : bool) (w : world) :
  is_truthy dataPassId = false ->
  is_truthy (VNum 0) = false /\ is_truthy VNull = false /\
  is_truthy VUndefined = false /\
  RunsPerDataPassExportModel.createExport
    (RunsPerDataPassExportModel.setDataPassId this dataPassId)
    fileName exportFormats setError w
  = OverviewExportModel.createExport (RunsPerDataPassExportModel.super this)
      fileName exportFormats setError w /\
  exists (r : outcome unit) (events : list event),
    RunsPerDataPassExportModel.createExport
      (RunsPerDataPassExportModel.setDataPassId this dataPassId)
      fileName exportFormats setError w
    = (r, {| trace := trace w ++ events; remote := remote w; issued := issued w |}) /\
    existsb is_fetch events = false.
Proof.
  intros Hid. repeat (split; [reflexivity|]).
  assert (Heq : RunsPerDataPassExportModel.createExport
                  (RunsPerDataPassExportModel.setDataPassId this dataPassId)
                  fileName exportFormats setError w
                = OverviewExportModel.createExport (RunsPerDataPassExportModel.super this)
                    fileName exportFormats setError w)
    by exact (createExport_falsy_id
                (RunsPerDataPassExportModel.setDataPassId this dataPassId)
                fileName exportFormats setError w Hid).
  split; [exact Heq|]. rewrite Heq. apply createExport_no_request.
Qed.

Lemma falsy_dataPassId_skips_enrichment_witness :
  run Sample.flaky
    (RunsPerDataPassExportModel.createExport
       (RunsPerDataPassExportModel.setDataPassId
          (Sample.perDataPass [Sample.run_1] (VNum 5)) (VNum 0))
       "runs" [] true)
  = (Returned tt,
     [JSONExport [ [("runNumber", VNum 1); ("TPC", VStr "BAD ( from: 10 to: 20 )")] ]
        "runs.json" "application/json"]).
Proof.
  unfold run.
  rewrite (proj1 (proj2 (proj2 (proj2
             (falsy_dataPassId_skips_enrichment
                (Sample.perDataPass [Sample.run_1] (VNum 5)) (VNum 0) "runs" [] true
                {| trace := []; remote := Sample.flaky; issued := 0 |} eq_refl))))).
  reflexivity.
Defined.








End Properties.

(* ================================================================== *)
(** * The order of the keys of the rows *)

Section KeyOrder.
Import JS Host Spec Columns.
Local Open Scope list_scope.










End KeyOrder.

Section PlainKeys.
Import JS Host Spec Columns.
Local Open Scope list_scope.









Example first_occurrences_sample :
  first_occurrences ["b"; "a"; "b"; "c"; "a"] = ["b"; "a"; "c"].
Proof. reflexivity. Qed.

Example own_keys_order_sample :
  own_keys_order ["b"; "10"; "a"; "2"; "b"] = ["2"; "10"; "b"; "a"].
Proof. reflexivity. Qed.





End PlainKeys.

(* ================================================================== *)
(** * Further facts on the two models *)

Section Configuration.
Import JS Host Spec.
Local Open Scope list_scope.

Lemma push_selected_values (selectedOptions : list OverviewExportModel.selected_option) :
  forall this : OverviewExportModel.t,
    fold_left
      (fun this opt =>
         {| OverviewExportModel._items := OverviewExportModel._items this;
            OverviewExportModel._selectedFields :=
              OverviewExportModel._selectedFields this
              ++ [OverviewExportModel.option_value opt];
            OverviewExportModel._selectedExportType :=
              OverviewExportModel._selectedExportType this |})
      selectedOptions this
    = {| OverviewExportModel._items := OverviewExportModel._items this;
         OverviewExportModel._selectedFields :=
           OverviewExportModel._selectedFields this
           ++ map OverviewExportModel.option_value selectedOptions;
         OverviewExportModel._selectedExportType :=
           OverviewExportModel._selectedExportType this |}.
Proof.
  induction selectedOptions as [|opt rest IH]; intros this; simpl.
  - rewrite app_nil_r. now destruct this.
  - rewrite IH. simpl. now rewrite <- app_assoc.
Qed.

(** The events of the base export do not depend on the events before it. *)
Lemma createExport_frame (this : OverviewExportModel.t) (fileName : string)
    (exportFormats : props field_config) (setError : bool) (w : world) :
  OverviewExportModel.createExport this fileName exportFormats setError w =
  (fst (run (remote w)
          (OverviewExportModel.createExport this fileName exportFormats setError)),
   {| trace := trace w
               ++ snd (run (remote w)
                         (OverviewExportModel.createExport this fileName exportFormats
                            setError));
      remote := remote w;
      issued := issued w |}).
Proof.
  unfold run, OverviewExportModel.createExport.
  destruct (negb _ || _).
  - destruct setError; unfold bind, when, emit, ret; simpl; [|reflexivity].
    now rewrite <- app_assoc.
  - unfold bind, lift.
    destruct (OverviewExportModel.detectors _) as [detectors|e].
    + destruct (OverviewExportModel.formatted _ _ detectors _) as [rows|e].
      * destruct (strict_eq_str _ "CSV"); reflexivity.
      * destruct w; simpl. now rewrite app_nil_r.
    + destruct w; simpl. now rewrite app_nil_r.
Qed.

End Configuration.


Section RowValues.
Import JS Host Spec.
Local Open Scope list_scope.






End RowValues.

Section Overwriting.
Import JS Host Spec.
Local Open Scope list_scope.
Context {V : Type}.

Lemma obj_replace_replace (k : string) (v x : V) (o : props V) :
  obj_replace k v (obj_replace k x o) = obj_replace k v o.
Proof.
  induction o as [|[k' v'] o IH]; simpl; [reflexivity|].
  destruct (String.eqb_spec k k') as [->|Hne]; simpl.
  - now rewrite String.eqb_refl.
  - destruct (String.eqb_spec k k'); [contradiction|]. now rewrite IH.
Qed.

Lemma obj_replace_insert (k : string) (v x : V) (o : props V) :
  obj_has k o = false ->
  obj_replace k v (obj_insert k x o) = obj_insert k v o.
Proof.
  unfold obj_has. induction o as [|[k' v'] o IH]; simpl; intros H.
  - now rewrite String.eqb_refl.
  - destruct (String.eqb_spec k k') as [->|Hne]; [discriminate|].
    destruct (key_precedes k k'); simpl.
    + now rewrite String.eqb_refl.
    + destruct (String.eqb_spec k k'); [contradiction|]. now rewrite IH.
Qed.

(** A second write to a key undoes the first. *)
Lemma obj_set_set (k : string) (v x : V) (o : props V) :
  obj_set k v (obj_set k x o) = obj_set k v o.
Proof.
  unfold obj_set at 1. rewrite obj_has_set, String.eqb_refl. simpl.
  unfold obj_set. destruct (obj_has k o) eqn:Hk.
  - apply obj_replace_replace.
  - now apply obj_replace_insert.
Qed.

End Overwriting.

Section QcMap.
Import JS Host Spec.
Local Open Scope list_scope.

Lemma field_obj_set_other (o : object) (k k' : string) (v : value) :
  k' <> k -> field (obj_set k v o) k' = field o k'.
Proof.
  intros Hne. unfold field, member. rewrite obj_get_set.
  destruct (String.eqb_spec k' k); [contradiction | reflexivity].
Qed.

Lemma qc_map_keys (rem : nat -> request -> fetch_outcome) (id : value) (k : string)
    (runNumbers : list value) :
  forall start map,
    In k (obj_keys (qc_map rem id start runNumbers map)) <->
    In k (obj_keys map) \/ In k (List.map to_property_key runNumbers).
Proof.
  induction runNumbers as [|rn rest IH]; intros start map; simpl; [tauto|].
  rewrite IH, <- !obj_has_true, obj_has_set, Bool.orb_true_iff, String.eqb_eq.
  intuition.
Qed.

End QcMap.

Section EnrichedRuns.
Import JS Host Spec.
Local Open Scope list_scope.

Lemma setSelectedFields_run (this : OverviewExportModel.t)
    (selectedOptions : list OverviewExportModel.selected_option) (w : world) :
  OverviewExportModel.setSelectedFields this selectedOptions w =
  (Returned
     {| OverviewExportModel._items := OverviewExportModel._items this;
        OverviewExportModel._selectedFields :=
          map OverviewExportModel.option_value selectedOptions;
        OverviewExportModel._selectedExportType :=
          OverviewExportModel._selectedExportType this |},
   {| trace := trace w ++ [Notify; VisualChange];
      remote := remote w;
      issued := issued w |}).
Proof.
  unfold OverviewExportModel.setSelectedFields. rewrite push_selected_values.
  unfold bind, emit, ret. cbn [trace remote issued OverviewExportModel._items
    OverviewExportModel._selectedFields OverviewExportModel._selectedExportType app].
  now rewrite <- app_assoc.
Qed.

End EnrichedRuns.

(* ================================================================== *)
(** * Further properties of the base model *)

Section BaseCoverage.
Import JS Host Spec Columns.
Local Open Scope list_scope.

(** X1. [setSelectedFields] discards the previous selection and stores the
    values of the options, in their order and with their repetitions; it
    leaves the items source and the export type alone and notifies on the
    general channel, then on the visual one. *)
Theorem setSelectedFields_replaces_selection (this : OverviewExportModel.t)
    (selectedOptions : list OverviewExportModel.selected_option) (w : world) :
  exists this' : OverviewExportModel.t,
    OverviewExportModel.setSelectedFields this selectedOptions w =
    (Returned this',
     {| trace := trace w ++ [Notify; VisualChange];
        remote := remote w;
        issued := issued w |}) /\
    OverviewExportModel.getSelectedFields this' =
      map OverviewExportModel.option_value selectedOptions /\
    OverviewExportModel._items this' = OverviewExportModel._items this /\
    OverviewExportModel.getSelectedExportType this' =
      OverviewExportModel.getSelectedExportType this.
Proof.
  eexists. split; [apply setSelectedFields_run|]. repeat split.
Qed.

(** X2. An export that follows calls of the setters reads what was set and
    bound last, whatever the model held before: after [setSelectedFields],
    [setSelectedExportType] and [setItemsSource], [createExport] does what
    it does on a model holding that source, those fields and that type,
    after the four notifications of the two setters. *)
Theorem export_uses_last_configuration (this : OverviewExportModel.t)
    (selectedOptions : list OverviewExportModel.selected_option) (exportType : value)
    (items : ObservableData (RemoteData (list object))) (fileName : string)
    (exportFormats : props field_config) (setError : bool)
    (rem : nat -> request -> fetch_outcome) :
  let configured :=
    {| OverviewExportModel._items := items;
       OverviewExportModel._selectedFields :=
         map OverviewExportModel.option_value selectedOptions;
       OverviewExportModel._selectedExportType := exportType |} in
  let export :=
    run rem (OverviewExportModel.createExport configured fileName exportFormats setError) in
  run rem
    (bind (OverviewExportModel.setSelectedFields this selectedOptions) (fun this =>
     bind (OverviewExportModel.setSelectedExportType this exportType) (fun this =>
     OverviewExportModel.createExport (OverviewExportModel.setItemsSource this items)
       fileName exportFormats setError)))
  = (fst export, [Notify; VisualChange; Notify; VisualChange] ++ snd export).
Proof.
  intros configured export. subst export.
  assert (Hrun : forall w,
    bind (OverviewExportModel.setSelectedFields this selectedOptions) (fun this =>
    bind (OverviewExportModel.setSelectedExportType this exportType) (fun this =>
    OverviewExportModel.createExport (OverviewExportModel.setItemsSource this items)
      fileName exportFormats setError)) w
    = (fst (run (remote w)
              (OverviewExportModel.createExport configured fileName exportFormats
                 setError)),
       {| trace := (trace w ++ [Notify; VisualChange; Notify; VisualChange])
                   ++ snd (run (remote w)
                             (OverviewExportModel.createExport configured fileName
                                exportFormats setError));
          remote := remote w;
          issued := issued w |})).
  { intros w. unfold bind at 1. rewrite setSelectedFields_run.
    unfold bind at 1. unfold OverviewExportModel.setSelectedExportType, bind, emit, ret.
    cbn [trace remote issued OverviewExportModel._items
      OverviewExportModel._selectedFields OverviewExportModel._selectedExportType].
    unfold OverviewExportModel.setItemsSource.
    cbn [OverviewExportModel._items OverviewExportModel._selectedFields
      OverviewExportModel._selectedExportType].
    fold configured. rewrite createExport_frame. cbn [trace remote issued].
    now rewrite <- !app_assoc. }
  unfold run at 1. rewrite Hrun. reflexivity.
Qed.



(** X4. On a non-empty successful snapshot in which some record has an
    annotation collection that is neither absent, null nor an array, or an
    array holding a null or undefined element, [createExport] throws a
    TypeError before anything else happens: no call of [setError], no
    notification, no sink call. *)
Theorem ill_typed_flags_throw (this : OverviewExportModel.t) (fileName : string)
    (exportFormats : props field_config) (setError : bool)
    (rem : nat -> request -> fetch_outcome) (payload : list object) :
  getCurrent (OverviewExportModel._items this) = Success payload ->
  forallb well_typed_item payload = false ->
  run rem (OverviewExportModel.createExport this fileName exportFormats setError)
  = (Thrown TypeError, []).
Proof.
  intros Hsnap Hill.
  assert (Hne : payload <> []) by (intros ->; discriminate).
  unfold run.
  rewrite (createExport_nonempty this fileName exportFormats setError payload Hsnap Hne).
  rewrite pipeline_run, (detectors_ill_typed payload Hill). reflexivity.
Qed.

Lemma ill_typed_flags_throw_witness :
  run Sample.flaky
    (OverviewExportModel.createExport
       (Sample.overview
          [Sample.run_1; [("runNumber", VNum 4); ("qcFlags", VArr [VNull])]]
          (VStr "CSV"))
       "runs" [] true)
  = (Thrown TypeError, []).
Proof.
  apply (ill_typed_flags_throw
           (Sample.overview
              [Sample.run_1; [("runNumber", VNum 4); ("qcFlags", VArr [VNull])]]
              (VStr "CSV"))
           "runs" [] true Sample.flaky
           [Sample.run_1; [("runNumber", VNum 4); ("qcFlags", VArr [VNull])]]).
  - reflexivity.
  - reflexivity.
Defined.

(** X17. On a successful snapshot of well-typed records in which some
    category is named like a member of [Object.prototype] ([constructor],
    [toString], [valueOf], [__proto__], ...), [createExport] throws a
    TypeError before anything else happens: no call of [setError], no
    notification, no sink call. *)
Theorem prototype_named_category_throws (this : OverviewExportModel.t)
    (fileName : string) (exportFormats : props field_config) (setError : bool)
    (rem : nat -> request -> fetch_outcome) (payload : list object) :
  getCurrent (OverviewExportModel._items this) = Success payload ->
  forallb well_typed_item payload = true ->
  forallb prototype_free (categories payload) = false ->
  run rem (OverviewExportModel.createExport this fileName exportFormats setError)
  = (Thrown TypeError, []).
Proof.
  intros Hsnap Hwt Hbad.
  destruct (detector_names_inherited _ Hbad) as [Hne Hdet].
  unfold run.
  rewrite (createExport_nonempty this fileName exportFormats setError payload Hsnap Hne).
  rewrite pipeline_run, (detectors_well_typed _ Hwt). simpl obind.
  rewrite (formatted_inherited _ _ _ _ Hne Hdet). reflexivity.
Qed.

Lemma prototype_named_category_throws_witness :
  run Sample.flaky
    (OverviewExportModel.createExport
       (Sample.overview [Sample.run_1; Sample.run_5] (VStr "CSV")) "runs" [] true)
  = (Thrown TypeError, []).
Proof.
  apply (prototype_named_category_throws
           (Sample.overview [Sample.run_1; Sample.run_5] (VStr "CSV"))
           "runs" [] true Sample.flaky [Sample.run_1; Sample.run_5]).
  - reflexivity.
  - reflexivity.
  - reflexivity.
Defined.

End BaseCoverage.

Section RowCoverage.
Import JS Host Spec Columns.
Local Open Scope list_scope.









End RowCoverage.

(* ================================================================== *)
(** * Further properties of the specialized model *)

Section EnrichmentCoverage.
Import JS Host Spec.
Local Open Scope list_scope.


(** X10. Apart from [__proto__], which is no key of an entry but the name
    of the prototype accessor, the map [_fetchQcFlags] returns has an own
    entry for the key of every run number of the list and for nothing else,
    so a lookup by the run number of a record of the batch finds an
    entry. *)
Theorem fetchQcFlags_entries (this : RunsPerDataPassExportModel.t)
    (runNumbers : list value) (w w' : world) (qcMap : object) :
  RunsPerDataPassExportModel._fetchQcFlags this runNumbers w = (Returned qcMap, w') ->
  forall k : string,
    k <> "__proto__" ->
    (In k (obj_keys qcMap) <-> In k (map to_property_key runNumbers)).
Proof.
  intros Hrun k _. rewrite fetchQcFlags_run in Hrun. injection Hrun as <- _.
  rewrite qc_map_keys. simpl. tauto.
Qed.

Lemma fetchQcFlags_entries_witness :
  let w := {| trace := []; remote := Sample.flaky; issued := 0 |} in
  let qcMap := [ ("1", VArr [Sample.qcFlag "TPC" "BAD" 10 20]);
                 ("2", VArr [Sample.qcFlag "TPC" "BAD" 10 20]) ] in
  RunsPerDataPassExportModel._fetchQcFlags (Sample.perDataPass [] (VNum 5))
    [VNum 1; VNum 2; VStr "1"] w
  = (Returned qcMap,
     {| trace := requests (VNum 5) [VNum 1; VNum 2; VStr "1"];
        remote := Sample.flaky;
        issued := 3 |}) /\
  forall k : string,
    k <> "__proto__" ->
    (In k (obj_keys qcMap) <-> In k (map to_property_key [VNum 1; VNum 2; VStr "1"])).
Proof.
  intros w qcMap. split; [reflexivity|].
  apply (fetchQcFlags_entries (Sample.perDataPass [] (VNum 5)) [VNum 1; VNum 2; VStr "1"]
           w {| trace := requests (VNum 5) [VNum 1; VNum 2; VStr "1"];
                remote := Sample.flaky;
                issued := 3 |}).
  reflexivity.
Defined.

(** X11. An entry of the map holds what the last request for its key left:
    for a run number whose key is not [__proto__] and that no later run
    number of the list shares the key of, the empty list when its request rejected or resolved to null or
    undefined, and the [items] of the response otherwise. *)
Theorem fetchQcFlags_last_request_wins (this : RunsPerDataPassExportModel.t)
    (runNumbers : list value) (w w' : world) (qcMap : object) (i : nat)
    (runNumber : value) :
  RunsPerDataPassExportModel._fetchQcFlags this runNumbers w = (Returned qcMap, w') ->
  nth_error runNumbers i = Some runNumber ->
  to_property_key runNumber <> "__proto__" ->
  (forall j other, i < j -> nth_error runNumbers j = Some other ->
                   to_property_key other <> to_property_key runNumber) ->
  obj_get (to_property_key runNumber) qcMap =
  Some match remote w (issued w + i)
               {| dataPassId := RunsPerDataPassExportModel._dataPassId this;
                  runNumber := runNumber;
                  page_limit := 1000 |} with
       | Rejects => VArr []
       | Resolves response =>
           if is_nullish response then VArr [] else member response "items"
       end.
Proof.
  intros Hrun Hi _ Hlast. rewrite fetchQcFlags_run in Hrun. injection Hrun as <- _.
  exact (qc_map_last _ _ _ i (issued w) [] runNumber Hi Hlast).
Qed.

Lemma fetchQcFlags_last_request_wins_witness :
  let w := {| trace := []; remote := Sample.flaky; issued := 0 |} in
  let qcMap := [ ("1", VArr [Sample.qcFlag "TPC" "BAD" 10 20]);
                 ("2", VArr [Sample.qcFlag "TPC" "BAD" 10 20]) ] in
  RunsPerDataPassExportModel._fetchQcFlags (Sample.perDataPass [] (VNum 5))
    [VNum 1; VNum 2; VStr "1"] w
  = (Returned qcMap,
     {| trace := requests (VNum 5) [VNum 1; VNum 2; VStr "1"];
        remote := Sample.flaky;
        issued := 3 |}) /\
  obj_get "1" qcMap = Some (VArr [Sample.qcFlag "TPC" "BAD" 10 20]).
Proof.
  intros w qcMap. split; [reflexivity|].
  apply (fetchQcFlags_last_request_wins (Sample.perDataPass [] (VNum 5))
           [VNum 1; VNum 2; VStr "1"] w
           {| trace := requests (VNum 5) [VNum 1; VNum 2; VStr "1"];
              remote := Sample.flaky;
              issued := 3 |}
           qcMap 2 (VStr "1")).
  - reflexivity.
  - reflexivity.
  - discriminate.
  - intros [|[|[|j]]] other Hlt Hj; try lia. simpl in Hj. destruct j; discriminate.
Defined.

(** X12. Under a truthy data pass id the annotations a record already
    carries play no part: an export of the records and an export of the
    same records with any other [qcFlags] are the same run, the fetched
    collection replacing the old one instead of being merged with it. *)
Theorem enrichment_replaces_existing_flags (payload : list object)
    (flags : object -> value) (selectedFields : list string) (exportType dataPassId : value)
    (fileName : string) (exportFormats : props field_config) (setError : bool)
    (w : world) :
  is_truthy dataPassId = true ->
  let model items :=
    {| RunsPerDataPassExportModel.super :=
         {| OverviewExportModel._items := {| getCurrent := Success items |};
            OverviewExportModel._selectedFields := selectedFields;
            OverviewExportModel._selectedExportType := exportType |};
       RunsPerDataPassExportModel._dataPassId := dataPassId |} in
  RunsPerDataPassExportModel.createExport
    (model (map (fun run => obj_set "qcFlags" (flags run) run) payload))
    fileName exportFormats setError w
  = RunsPerDataPassExportModel.createExport (model payload)
      fileName exportFormats setError w.
Proof.
  intros Hid model. destruct payload as [|item rest]; [reflexivity|].
  set (payload := item :: rest).
  set (payload' := map (fun run => obj_set "qcFlags" (flags run) run) payload).
  rewrite (createExport_enriched (model payload') fileName exportFormats setError
             payload' w eq_refl ltac:(discriminate) Hid).
  rewrite (createExport_enriched (model payload) fileName exportFormats setError
             payload w eq_refl ltac:(discriminate) Hid).
  assert (Hnumbers : run_numbers payload' = run_numbers payload).
  { unfold run_numbers, payload'. rewrite map_map. apply map_ext.
    intros run. apply field_obj_set_other. discriminate. }
  rewrite Hnumbers.
  assert (Hflags : forall qcMap,
            map (RunsPerDataPassExportModel.with_flags qcMap) payload'
            = map (RunsPerDataPassExportModel.with_flags qcMap) payload).
  { intros qcMap. unfold payload'. rewrite map_map. apply map_ext. intros run.
    unfold RunsPerDataPassExportModel.with_flags.
    rewrite obj_set_set, field_obj_set_other by discriminate. reflexivity. }
  rewrite Hflags. reflexivity.
Qed.

Lemma enrichment_replaces_existing_flags_witness :
  let w := {| trace := []; remote := Sample.flaky; issued := 0 |} in
  RunsPerDataPassExportModel.createExport
    (Sample.perDataPass
       (map (fun run => obj_set "qcFlags" (VStr "stale") run)
            [Sample.run_2; Sample.run_3])
       (VNum 5))
    "runs" [] true w
  = RunsPerDataPassExportModel.createExport
      (Sample.perDataPass [Sample.run_2; Sample.run_3] (VNum 5)) "runs" [] true w.
Proof.
  intros w.
  exact (enrichment_replaces_existing_flags [Sample.run_2; Sample.run_3]
           (fun _ => VStr "stale") ["runNumber"; "lhcPeriod"] (VStr "JSON")
           (VNum 5) "runs" [] true w eq_refl).
Defined.





End EnrichmentCoverage.
